(** * CloudBees Core pod monitor ([dashboard.js]): a shallow embedding

    The script is a terminal dashboard: it asks [kubectl] for the pods and
    the StatefulSets of a labelled application, derives a few presentation
    values (uptime, restart summary, health summary, colour of a phase) and
    prints a report.

    Conventions of the embedding.

    - A JavaScript string is a [string]; the emoji and box-drawing
      characters of the source are kept as their UTF-8 bytes.
    - A JavaScript number is a [Number]: [NaN] or an exact integer.  The
      numbers of the script are time values in milliseconds, counts and
      lengths; on those, within 2^53, the double arithmetic of the source
      ([-], [/] followed by [Math.floor], [%]) is exact.
    - [undefined] is [None].
    - The platform is not code of the script: the clock, [Date] parsing,
      [child_process.exec], [JSON.parse] and the process environment are
      variables of the sections below.
    - [console.log] and [console.error] append one entry to the output.
    - Resource documents are read at the Kubernetes schema: a record per
      kind of document, an [option] per field the schema leaves optional. *)

From Stdlib Require Import ZArith String Ascii List Bool Lia.
From Stdlib Require Import DecimalString DecimalZ DecimalPos.
Import ListNotations.

Local Open Scope string_scope.
Local Open Scope Z_scope.

(** ** JavaScript primitives used by the script *)

Module Js.

(** Numbers: [NaN] (the time value of an invalid [Date]) or an integer. *)
Inductive Number : Type :=
| NaN
| Int (z : Z).

(** [a - b]. *)
Definition sub (a b : Number) : Number :=
  match a, b with
  | Int x, Int y => Int (x - y)
  | _, _ => NaN
  end.

(** [Math.floor(a / c)], for an integer constant [c]. *)
Definition floorDiv (a : Number) (c : Z) : Number :=
  match a with
  | Int x => Int (x / c)
  | NaN => NaN
  end.

(** [a % c]: the remainder has the sign of the dividend. *)
Definition rem (a : Number) (c : Z) : Number :=
  match a with
  | Int x => Int (Z.rem x c)
  | NaN => NaN
  end.

(** [a > c]; every comparison with [NaN] is false. *)
Definition gt (a : Number) (c : Z) : bool :=
  match a with
  | Int x => c <? x
  | NaN => false
  end.

(** Decimal rendering of an integer, as in a template literal. *)
Definition intToString (z : Z) : string :=
  NilZero.string_of_int (Z.to_int z).

(** [`${a}`] for a number. *)
Definition toString (a : Number) : string :=
  match a with
  | Int x => intToString x
  | NaN => "NaN"
  end.

(** [s.includes(sub)]. *)
Fixpoint includes (s sub : string) : bool :=
  if String.prefix sub s then true
  else match s with
       | EmptyString => false
       | String _ s' => includes s' sub
       end.

(** [s.split(c)] for a one-character separator: never empty. *)
Fixpoint split (c : ascii) (s : string) : list string :=
  match s with
  | EmptyString => [EmptyString]
  | String a s' =>
      if Ascii.eqb a c then EmptyString :: split c s'
      else match split c s' with
           | [] => [String a EmptyString]
           | x :: xs => String a x :: xs
           end
  end.

(** [l.pop()] on the result of a [split]: its last element. *)
Definition pop (l : list string) : string := List.last l EmptyString.

(** [l.join(sep)]. *)
Fixpoint join (sep : string) (l : list string) : string :=
  match l with
  | [] => EmptyString
  | [x] => x
  | x :: xs => x ++ sep ++ join sep xs
  end.

Fixpoint spaces (n : nat) : string :=
  match n with
  | O => EmptyString
  | S n' => String " " (spaces n')
  end.

(** [s.padStart(n)]: pads with spaces on the left up to [n] characters. *)
Definition padStart (n : nat) (s : string) : string :=
  spaces (n - String.length s) ++ s.

(** Truthiness of a string: every string but the empty one. *)
Definition truthy (s : string) : bool :=
  match s with
  | EmptyString => false
  | String _ _ => true
  end.

(** [l.find(p)]. *)
Definition find {A : Type} (p : A -> bool) (l : list A) : option A :=
  List.find p l.

(** [l.push(x)], as the array it leaves. *)
Definition push {A : Type} (l : list A) (x : A) : list A :=
  (l ++ [x])%list.

(** [l.some(p)]. *)
Definition some {A : Type} (p : A -> bool) (l : list A) : bool :=
  List.existsb p l.

(** [l.filter(p)]. *)
Definition filter {A : Type} (p : A -> bool) (l : list A) : list A :=
  List.filter p l.

(** [l.length]. *)
Definition length {A : Type} (l : list A) : Z :=
  Z.of_nat (List.length l).

(** [x || d] on an optional string: [undefined] and the empty string
    give [d]. *)
Definition orString (x : option string) (d : string) : string :=
  match x with
  | Some v => if truthy v then v else d
  | None => d
  end.

(** [x || 0] on an optional number. *)
Definition orZero (x : option Z) : Z :=
  match x with
  | Some v => if v =? 0 then 0 else v
  | None => 0
  end.

(** Truthiness of an optional string. *)
Definition truthyString (x : option string) : bool :=
  match x with
  | Some v => truthy v
  | None => false
  end.

(** Truthiness of an optional boolean. *)
Definition truthyBool (x : option bool) : bool :=
  match x with
  | Some b => b
  | None => false
  end.

(** [`${x}`] for an optional string. *)
Definition show (x : option string) : string :=
  match x with
  | Some v => v
  | None => "undefined"
  end.

(** An [Error] object: its class and its [message]. *)
Record Error : Type := mkError {
  errName : string;
  message : string
}.

(** How an awaited promise, or a call that may throw, ends. *)
Inductive Completion (A : Type) : Type :=
| Resolved (a : A)
| Rejected (e : Error).

Arguments Resolved {A} a.
Arguments Rejected {A} e.

End Js.

(** One-character strings that a literal cannot hold. *)
Definition esc : string := String (ascii_of_nat 27) EmptyString.
Definition nl : string := String (ascii_of_nat 10) EmptyString.
Definition dquote : string := String (ascii_of_nat 34) EmptyString.

(** ** [colors] and [statusIcons] *)

Module colors.
Definition reset : string := esc ++ "[0m".
Definition bright : string := esc ++ "[1m".
Definition dim : string := esc ++ "[2m".
Definition red : string := esc ++ "[31m".
Definition green : string := esc ++ "[32m".
Definition yellow : string := esc ++ "[33m".
Definition blue : string := esc ++ "[34m".
Definition magenta : string := esc ++ "[35m".
Definition cyan : string := esc ++ "[36m".
Definition white : string := esc ++ "[37m".
Definition bgRed : string := esc ++ "[41m".
Definition bgGreen : string := esc ++ "[42m".
Definition bgYellow : string := esc ++ "[43m".
Definition bgBlue : string := esc ++ "[44m".
End colors.

(** [statusIcons[key]], on the keys the object holds itself. *)
Definition statusIcons (key : string) : option string :=
  if String.eqb key "Running" then Some "🟢"
  else if String.eqb key "Pending" then Some "🟡"
  else if String.eqb key "Failed" then Some "🔴"
  else if String.eqb key "Succeeded" then Some "✅"
  else if String.eqb key "Unknown" then Some "❓"
  else if String.eqb key "ContainerCreating" then Some "🔄"
  else if String.eqb key "CrashLoopBackOff" then Some "💥"
  else if String.eqb key "ImagePullBackOff" then Some "📥"
  else None.

(** ** Resource documents *)

(** A pod condition: [type] and [status]. *)
Record Condition : Type := mkCondition {
  cond_type : string;
  cond_status : string
}.

(** An entry of [metadata.ownerReferences]. *)
Record OwnerReference : Type := mkOwnerReference {
  ref_kind : string;
  ref_name : string
}.

(** [lastState.terminated] of a container status. *)
Record Terminated : Type := mkTerminated {
  finishedAt : option string
}.

(** [lastState] of a container status. *)
Record ContainerState : Type := mkContainerState {
  terminated : option Terminated
}.

(** An entry of [status.containerStatuses]. *)
Record ContainerStatus : Type := mkContainerStatus {
  cs_name : string;
  cs_image : string;
  cs_ready : bool;
  cs_restartCount : Z;
  cs_lastState : option ContainerState
}.

(** [persistentVolumeClaim] of a volume. *)
Record PersistentVolumeClaim : Type := mkPersistentVolumeClaim {
  claimName : string
}.

(** An entry of [spec.volumes]. *)
Record Volume : Type := mkVolume {
  persistentVolumeClaim : option PersistentVolumeClaim
}.

(** [pod.metadata]. *)
Record PodMetadata : Type := mkPodMetadata {
  pod_name : string;
  ownerReferences : option (list OwnerReference)
}.

(** [pod.spec]. *)
Record PodSpec : Type := mkPodSpec {
  nodeName : option string;
  volumes : option (list Volume)
}.

(** [pod.status]. *)
Record PodStatus : Type := mkPodStatus {
  phase : string;
  startTime : option string;
  containerStatuses : option (list ContainerStatus);
  conditions : option (list Condition)
}.

(** A pod document. *)
Record Pod : Type := mkPod {
  pod_metadata : PodMetadata;
  pod_spec : PodSpec;
  pod_status : PodStatus
}.

(** A StatefulSet document: [metadata.name], [spec.replicas],
    [status.readyReplicas] and [status.currentReplicas]. *)
Record StatefulSet : Type := mkStatefulSet {
  sts_name : string;
  sts_replicas : option Z;
  sts_readyReplicas : option Z;
  sts_currentReplicas : option Z
}.

(** ** Derivation functions of [JenkinsPodMonitor] *)

Section Derivation.

(** [new Date(s).getTime()]: [None] for an invalid date. *)
Variable Date_parse : string -> option Z.

(** [new Date(startTime)], as its time value. *)
Definition Date_new (s : string) : Js.Number :=
  match Date_parse s with
  | Some ms => Js.Int ms
  | None => Js.NaN
  end.

(** [formatUptime(startTime)]; [now] is what [new Date()] reads. *)
Definition formatUptime (now : Z) (startTime : string) : string :=
  let start := Date_new startTime in
  let diffMs := Js.sub (Js.Int now) start in
  let days := Js.floorDiv diffMs (1000 * 60 * 60 * 24) in
  let hours := Js.floorDiv (Js.rem diffMs (1000 * 60 * 60 * 24)) (1000 * 60 * 60) in
  let minutes := Js.floorDiv (Js.rem diffMs (1000 * 60 * 60)) (1000 * 60) in
  if Js.gt days 0 then
    Js.toString days ++ "d " ++ Js.toString hours ++ "h " ++ Js.toString minutes ++ "m"
  else if Js.gt hours 0 then
    Js.toString hours ++ "h " ++ Js.toString minutes ++ "m"
  else
    Js.toString minutes ++ "m".

(** [getStatusColor(status)]. *)
Definition getStatusColor (status : string) : string :=
  if String.eqb status "Running" then colors.green
  else if String.eqb status "Pending" || String.eqb status "ContainerCreating"
  then colors.yellow
  else if String.eqb status "Failed" || String.eqb status "CrashLoopBackOff"
          || String.eqb status "ImagePullBackOff"
  then colors.red
  else if String.eqb status "Succeeded" then colors.cyan
  else colors.dim.

(** [formatRestartInfo(restartCount, lastRestartTime)]. *)
Definition formatRestartInfo (now : Z) (restartCount : Z)
           (lastRestartTime : option string) : string :=
  if restartCount =? 0 then
    colors.green ++ "No restarts" ++ colors.reset
  else
    let restartColor :=
      if 5 <? restartCount then colors.red
      else if 2 <? restartCount then colors.yellow
      else colors.cyan in
    let timeAgo :=
      match lastRestartTime with
      | Some t => if Js.truthy t then formatUptime now t else "unknown"
      | None => "unknown"
      end in
    restartColor ++ Js.intToString restartCount ++ " restarts" ++ colors.reset
    ++ " " ++ colors.dim ++ "(last: " ++ timeAgo ++ " ago)" ++ colors.reset.

(** The [health] array of [formatHealthStatus], once its three tests
    have pushed their fragments. *)
Definition healthFragments (conditions : list Condition) : list string :=
  let ready := Js.find (fun c => String.eqb (cond_type c) "Ready") conditions in
  let scheduled :=
    Js.find (fun c => String.eqb (cond_type c) "PodScheduled") conditions in
  let initialized :=
    Js.find (fun c => String.eqb (cond_type c) "Initialized") conditions in
  let health0 : list string := [] in
  let health1 :=
    match ready with
    | Some r =>
        let icon := if String.eqb (cond_status r) "True" then "✅" else "❌" in
        let color :=
          if String.eqb (cond_status r) "True" then colors.green else colors.red in
        Js.push health0 (color ++ "Ready: " ++ icon ++ colors.reset)
    | None => health0
    end in
  let health2 :=
    match scheduled with
    | Some s =>
        if String.eqb (cond_status s) "True"
        then Js.push health1 (colors.green ++ "Scheduled: ✅" ++ colors.reset)
        else health1
    | None => health1
    end in
  match initialized with
  | Some i =>
      if String.eqb (cond_status i) "True"
      then Js.push health2 (colors.green ++ "Initialized: ✅" ++ colors.reset)
      else health2
  | None => health2
  end.

(** [formatHealthStatus(conditions)]. *)
Definition formatHealthStatus (conditions : option (list Condition)) : string :=
  match conditions with
  | None => colors.dim ++ "No health data" ++ colors.reset
  | Some conditions =>
    if Js.length conditions =? 0 then
      colors.dim ++ "No health data" ++ colors.reset
    else
      let joined := Js.join " | " (healthFragments conditions) in
      if Js.truthy joined then joined
      else colors.dim ++ "Unknown" ++ colors.reset
  end.

End Derivation.

(** ** Report renderer *)

(** What the script writes: a line on standard output ([console.log]), a
    line on standard error ([console.error]) or a cleared screen
    ([console.clear]). *)
Inductive Out : Type :=
| Log (line : string)
| Err (line : string)
| Clear.

Definition headerBox : string :=
  "╔══════════════════════════════════════════════════════════════════════════════╗" ++ nl ++
  "║                        🏗️  CLOUDBEES CORE POD MONITOR 🏗️                      ║" ++ nl ++
  "╚══════════════════════════════════════════════════════════════════════════════╝".

Definition podRule : string :=
  "   ────────────────────────────────────────────────────────────────────────".

Definition summaryTop : string :=
  "╔═══════════════════════════════════════════════════════════════════════════════╗".
Definition summaryTitle : string :=
  "║                                   SUMMARY                                     ║".
Definition summaryRule : string :=
  "╠═══════════════════════════════════════════════════════════════════════════════╣".
Definition summaryBottom : string :=
  "╚═══════════════════════════════════════════════════════════════════════════════╝".

(** [ref => ref.kind === 'StatefulSet'] *)
Definition isStatefulSetRef (ref : OwnerReference) : bool :=
  String.eqb (ref_kind ref) "StatefulSet".

(** [pod.metadata.ownerReferences?.some(ref => ref.kind === 'StatefulSet')]:
    [undefined] when the pod has no owner references. *)
Definition isStatefulSet (pod : Pod) : option bool :=
  match ownerReferences (pod_metadata pod) with
  | Some refs => Some (Js.some isStatefulSetRef refs)
  | None => None
  end.

(** [isStatefulSet ? pod.metadata.ownerReferences.find(...)?.name : null];
    [null] and [undefined] are both [None]. *)
Definition statefulSetName (pod : Pod) : option string :=
  if Js.truthyBool (isStatefulSet pod) then
    match ownerReferences (pod_metadata pod) with
    | Some refs =>
        match Js.find isStatefulSetRef refs with
        | Some ref => Some (ref_name ref)
        | None => None
        end
    | None => None
    end
  else None.

(** [containers.find(c => c.name.includes('jenkins') ||
    c.name.includes('cloudbees')) || containers[0]] *)
Definition mainContainer (containers : list ContainerStatus) : option ContainerStatus :=
  match Js.find (fun c => Js.includes (cs_name c) "jenkins"
                          || Js.includes (cs_name c) "cloudbees") containers with
  | Some c => Some c
  | None => List.hd_error containers
  end.

(** [mainContainer?.lastState?.terminated?.finishedAt] *)
Definition lastRestartTime (main : option ContainerStatus) : option string :=
  match main with
  | Some c =>
      match cs_lastState c with
      | Some st =>
          match terminated st with
          | Some t => finishedAt t
          | None => None
          end
      | None => None
      end
  | None => None
  end.

Section Renderer.

Variable Date_parse : string -> option Z.

(** [printPodInfo(pod)]: the lines it logs. *)
Definition printPodInfo (now : Z) (pod : Pod) : list Out :=
  let name := pod_name (pod_metadata pod) in
  let status := phase (pod_status pod) in
  let node := Js.orString (nodeName (pod_spec pod)) "Unscheduled" in
  let startTime := startTime (pod_status pod) in
  let uptime :=
    match startTime with
    | Some t => if Js.truthy t then formatUptime Date_parse now t else "N/A"
    | None => "N/A"
    end in
  let isStatefulSet := Js.truthyBool (isStatefulSet pod) in
  let statefulSetName := statefulSetName pod in
  let containers :=
    match containerStatuses (pod_status pod) with
    | Some cs => cs
    | None => []
    end in
  let mainContainer := mainContainer containers in
  let restartCount :=
    match mainContainer with
    | Some c => cs_restartCount c
    | None => 0
    end in
  let lastRestartTime := lastRestartTime mainContainer in
  let statusIcon :=
    match statusIcons status with
    | Some icon => icon
    | None => Js.show (statusIcons "Unknown")
    end in
  let statusColor := getStatusColor status in
  let podTypeIcon := if isStatefulSet then "📊" else "📦" in
  let podType := if isStatefulSet then "StatefulSet Pod" else "Pod" in
  ([Log (colors.bright ++ podTypeIcon ++ " " ++ podType ++ ": " ++ colors.cyan
         ++ name ++ colors.reset)]
   ++ (if Js.truthyString statefulSetName then
         [Log ("   🏗️  StatefulSet: " ++ colors.magenta ++ Js.show statefulSetName
               ++ colors.reset)]
       else [])
   ++ [Log ("   " ++ statusIcon ++ " Status: " ++ statusColor ++ status
            ++ colors.reset);
       Log ("   🖥️  Node: " ++ colors.white ++ node ++ colors.reset);
       Log ("   ⏱️  Uptime: " ++ colors.green ++ uptime ++ colors.reset);
       Log ("   🔄 Restarts: "
            ++ formatRestartInfo Date_parse now restartCount lastRestartTime);
       Log ("   🏥 Health: " ++ formatHealthStatus (conditions (pod_status pod)))]
   ++ (if isStatefulSet then
         match volumes (pod_spec pod) with
         | Some vols =>
             let pvcs :=
               Js.filter (fun v => match persistentVolumeClaim v with
                                   | Some _ => true
                                   | None => false
                                   end) vols in
             if 0 <? Js.length pvcs then
               Log "   💾 Persistent Volumes:"
               :: List.map (fun pvc =>
                    Log ("      • " ++ colors.yellow
                         ++ match persistentVolumeClaim pvc with
                            | Some c => claimName c
                            | None => "undefined"
                            end
                         ++ colors.reset)) pvcs
             else []
         | None => []
         end
       else [])
   ++ (if 0 <? Js.length containers then
         Log "   📋 Containers:"
         :: List.map (fun container =>
              let containerStatus :=
                if cs_ready container then "🟢 Ready" else "🔴 Not Ready" in
              let image := Js.pop (Js.split "/" (cs_image container)) in
              Log ("      • " ++ colors.cyan ++ cs_name container ++ colors.reset
                   ++ ": " ++ containerStatus ++ " (" ++ colors.dim ++ image
                   ++ colors.reset ++ ")")) containers
       else [])
   ++ [Log (colors.dim ++ podRule ++ colors.reset ++ nl)])%list.

End Renderer.

(** The counts at the head of [printSummary(pods, statefulSets)]. *)
Definition totalPods (pods : list Pod) : Z := Js.length pods.
Definition runningPods (pods : list Pod) : Z :=
  Js.length (Js.filter (fun p => String.eqb (phase (pod_status p)) "Running") pods).
Definition pendingPods (pods : list Pod) : Z :=
  Js.length (Js.filter (fun p => String.eqb (phase (pod_status p)) "Pending") pods).
Definition failedPods (pods : list Pod) : Z :=
  Js.length (Js.filter (fun p => String.eqb (phase (pod_status p)) "Failed") pods).
Definition statefulSetPods (pods : list Pod) : Z :=
  Js.length (Js.filter (fun p => Js.truthyBool (isStatefulSet p)) pods).

(** [healthStatus] of [printSummary]. *)
Definition healthStatus (pods : list Pod) : string :=
  if (runningPods pods =? totalPods pods) && (0 <? totalPods pods) then "HEALTHY"
  else if 0 <? failedPods pods then "UNHEALTHY"
  else "DEGRADED".

(** [healthColor] of [printSummary]. *)
Definition healthColor (pods : list Pod) : string :=
  if String.eqb (healthStatus pods) "HEALTHY" then colors.green
  else if String.eqb (healthStatus pods) "UNHEALTHY" then colors.red
  else colors.yellow.

(** [printSummary(pods, statefulSets)]: the lines it logs. *)
Definition printSummary (pods : list Pod) (statefulSets : list StatefulSet)
  : list Out :=
  let pad3 (n : Z) := Js.padStart 3 (Js.intToString n) in
  ([Log (colors.blue ++ summaryTop);
    Log summaryTitle;
    Log summaryRule;
    Log ("║ Total Pods: " ++ colors.white ++ pad3 (totalPods pods) ++ colors.blue
         ++ "  │  Running: " ++ colors.green ++ pad3 (runningPods pods) ++ colors.blue
         ++ "  │  Pending: " ++ colors.yellow ++ pad3 (pendingPods pods) ++ colors.blue
         ++ "  │  Failed: " ++ colors.red ++ pad3 (failedPods pods) ++ colors.blue
         ++ " ║");
    Log ("║ StatefulSets: " ++ colors.magenta
         ++ Js.padStart 2 (Js.intToString (Js.length statefulSets)) ++ colors.blue
         ++ "   │  StatefulSet Pods: " ++ colors.cyan ++ pad3 (statefulSetPods pods)
         ++ colors.blue ++ "                              ║");
    Log (summaryBottom ++ colors.reset)]
   ++ (if 0 <? Js.length statefulSets then
         Log (nl ++ colors.bright ++ "📊 StatefulSet Status:" ++ colors.reset)
         :: List.map (fun sts =>
              let desired := Js.orZero (sts_replicas sts) in
              let ready := Js.orZero (sts_readyReplicas sts) in
              let current := Js.orZero (sts_currentReplicas sts) in
              let statusColor :=
                if ready =? desired then colors.green
                else if ready =? 0 then colors.red
                else colors.yellow in
              Log ("   • " ++ colors.cyan ++ sts_name sts ++ colors.reset ++ ": "
                   ++ statusColor ++ Js.intToString ready ++ "/"
                   ++ Js.intToString desired ++ " ready" ++ colors.reset ++ " ("
                   ++ Js.intToString current ++ " current)")) statefulSets
       else [])
   ++ [Log (nl ++ colors.bright ++ "Overall CloudBees Core Status: "
            ++ healthColor pods ++ healthStatus pods ++ colors.reset ++ " "
            ++ Js.show (statusIcons
                          (if String.eqb (healthStatus pods) "HEALTHY" then "Running"
                           else if String.eqb (healthStatus pods) "UNHEALTHY"
                                then "Failed"
                                else "Pending"))
            ++ nl)])%list.

(** ** Resource fetcher *)

(** What [child_process.exec] resolves with. *)
Record ExecOutput : Type := mkExecOutput {
  stdout : string;
  stderr : string
}.

(** A value of [JSON.parse], read at the schema of a list of documents of
    type [D]: the elements of an array are documents.  An object holds each
    key once, as [JSON.parse] builds it. *)
#[warnings="-register-all"]
Inductive Json (D : Type) : Type :=
| JNull
| JBool (b : bool)
| JNumber (n : Z)
| JString (s : string)
| JArray (elements : list D)
| JObject (fields : list (string * Json D)).

Arguments JNull {D}.
Arguments JBool {D} b.
Arguments JNumber {D} n.
Arguments JString {D} s.
Arguments JArray {D} elements.
Arguments JObject {D} fields.

(** The two kinds of documents the script asks for. *)
Inductive Kind : Type :=
| PodKind
| StatefulSetKind.

Definition Doc (k : Kind) : Type :=
  match k with
  | PodKind => Pod
  | StatefulSetKind => StatefulSet
  end.

Section Fetcher.

Context {D : Type}.

(** The value of an own property of an object. *)
Fixpoint lookup (key : string) (fields : list (string * Json D))
  : option (Json D) :=
  match fields with
  | [] => None
  | (k, v) :: rest => if String.eqb k key then Some v else lookup key rest
  end.

(** [data.items]: a [TypeError] on [null], [undefined] on a value that
    has no such property. *)
Definition get_items (data : Json D) : Js.Completion (option (Json D)) :=
  match data with
  | JNull =>
      Js.Rejected
        (Js.mkError "TypeError" "Cannot read properties of null (reading 'items')")
  | JObject fields => Js.Resolved (lookup "items" fields)
  | _ => Js.Resolved None
  end.

(** Truthiness of a JSON value. *)
Definition truthy (v : Json D) : bool :=
  match v with
  | JNull => false
  | JBool b => b
  | JNumber n => negb (n =? 0)
  | JString s => Js.truthy s
  | JArray _ => true
  | JObject _ => true
  end.

(** [x || []]. *)
Definition orEmpty (x : option (Json D)) : Json D :=
  match x with
  | Some v => if truthy v then v else JArray []
  | None => JArray []
  end.

End Fetcher.

(** [await c; k], and what a [try] block hands to its [catch]. *)
Definition bind {A B : Type} (c : Js.Completion A) (k : A -> Js.Completion B)
  : Js.Completion B :=
  match c with
  | Js.Resolved a => k a
  | Js.Rejected e => Js.Rejected e
  end.

(** [try { body } catch (error) { handler }]. *)
Definition try_catch {A : Type} (body : Js.Completion A)
           (handler : Js.Error -> Js.Completion A) : Js.Completion A :=
  match body with
  | Js.Resolved a => Js.Resolved a
  | Js.Rejected e => handler e
  end.

Notation "x <- c ;; k" := (bind c (fun x => k))
  (at level 61, c at next level, right associativity).

(** A [JenkinsPodMonitor] object: the two fields its constructor sets. *)
Record JenkinsPodMonitor : Type := mkJenkinsPodMonitor {
  namespace : string;
  labelSelector : string
}.

(** How [run] ends: it returns, or it calls [process.exit]. *)
Inductive RunEnd : Type :=
| Returned
| Exited (code : Z).

(** How the script leaves the process: an exit status, or alive with the
    refresh timer of the watch mode armed. *)
Inductive ProcessEnd : Type :=
| ExitStatus (code : Z)
| Alive.

Section Script.

(** [process.env] *)
Variable env : string -> option string.
(** [util.promisify(exec)] *)
Variable execAsync : string -> Js.Completion ExecOutput.
(** [JSON.parse], at the schema of a list of documents of kind [k] *)
Variable JSON_parse : forall k : Kind, string -> Js.Completion (Json (Doc k)).
(** [new Date(s).getTime()] *)
Variable Date_parse : string -> option Z.
(** the time [new Date()] reads during the run *)
Variable now : Z.
(** [new Date().toLocaleString()] *)
Variable localeNow : string.
(** of the two queries of a run, the one that settles first *)
Variable settlesFirst : Kind.

(** [constructor()] *)
Definition newMonitor : JenkinsPodMonitor :=
  {| namespace := Js.orString (env "JENKINS_NAMESPACE") "cloudbees-core";
     labelSelector :=
       Js.orString (env "JENKINS_LABEL") "app.kubernetes.io/name=cloudbees-core" |}.

(** [checkKubectl()]: what it writes and what it returns. *)
Definition checkKubectl : list Out * bool :=
  match execAsync "kubectl version --client" with
  | Js.Resolved _ => ([], true)
  | Js.Rejected _ =>
      ([Err (colors.red ++ "❌ kubectl is not installed or not in PATH"
             ++ colors.reset)], false)
  end.

(** [getJenkinsPods()] *)
Definition getJenkinsPods (this : JenkinsPodMonitor) : Js.Completion (Json Pod) :=
  try_catch
    (let cmd := "kubectl get pods -n " ++ namespace this ++ " -l "
                ++ labelSelector this ++ " -o json" in
     out <- execAsync cmd ;;
     data <- JSON_parse PodKind (stdout out) ;;
     items <- get_items data ;;
     Js.Resolved (orEmpty items))
    (fun error =>
       if Js.includes (Js.message error) "No resources found"
       then Js.Resolved (JArray [])
       else Js.Rejected error).

(** [getStatefulSets()] *)
Definition getStatefulSets (this : JenkinsPodMonitor)
  : Js.Completion (Json StatefulSet) :=
  try_catch
    (let cmd := "kubectl get statefulsets -n " ++ namespace this ++ " -l "
                ++ labelSelector this ++ " -o json" in
     out <- execAsync cmd ;;
     data <- JSON_parse StatefulSetKind (stdout out) ;;
     items <- get_items data ;;
     Js.Resolved (orEmpty items))
    (fun error =>
       if Js.includes (Js.message error) "No resources found"
       then Js.Resolved (JArray [])
       else Js.Rejected error).

(** [printHeader()] *)
Definition printHeader (this : JenkinsPodMonitor) : list Out :=
  [Log (nl ++ colors.blue ++ headerBox ++ colors.reset ++ nl);
   Log (colors.dim ++ "Namespace: " ++ colors.cyan ++ namespace this ++ colors.dim
        ++ " | Label Selector: " ++ colors.cyan ++ labelSelector this
        ++ colors.reset);
   Log (colors.dim ++ "Timestamp: " ++ colors.white ++ localeNow ++ colors.reset
        ++ nl)].

(** [Promise.all([a, b])]: both values, or the rejection that comes
    first. *)
Definition Promise_all {A B : Type} (a : Js.Completion A) (b : Js.Completion B)
  : Js.Completion (A * B) :=
  match a, b with
  | Js.Resolved x, Js.Resolved y => Js.Resolved (x, y)
  | Js.Rejected e, Js.Resolved _ => Js.Rejected e
  | Js.Resolved _, Js.Rejected e => Js.Rejected e
  | Js.Rejected e1, Js.Rejected e2 =>
      match settlesFirst with
      | PodKind => Js.Rejected e1
      | StatefulSetKind => Js.Rejected e2
      end
  end.

(** The [catch] clause of [run]. *)
Definition runCatch (error : Js.Error) : list Out * RunEnd :=
  ([Err (colors.red ++ "❌ Error: " ++ Js.message error ++ colors.reset)], Exited 1).

(** The three lines of the outcome where nothing is found. *)
Definition noResources (this : JenkinsPodMonitor) : list Out :=
  [Log (colors.yellow ++ "⚠️  No CloudBees Core resources found in namespace '"
        ++ namespace this ++ "' with label '" ++ labelSelector this ++ "'"
        ++ colors.reset);
   Log (colors.dim
        ++ "Try adjusting the JENKINS_NAMESPACE or JENKINS_LABEL environment variables"
        ++ colors.reset);
   Log (colors.dim
        ++ "Common CloudBees Core labels: app.kubernetes.io/name=cloudbees-core, app=cjoc, app=jenkins"
        ++ colors.reset)].

(** [run()]: what it writes and how it ends.  [None] when a query
    resolves with a value that is not an array: the script goes on with
    coercions of that value, which are left out of the embedding. *)
Definition run (this : JenkinsPodMonitor) : option (list Out * RunEnd) :=
  let out1 := printHeader this in
  let '(out2, ok) := checkKubectl in
  if negb ok then Some ((out1 ++ out2)%list, Exited 1)
  else
    let out3 :=
      [Log (colors.dim ++ "🔍 Searching for CloudBees Core pods and StatefulSets..."
            ++ colors.reset ++ nl)] in
    match Promise_all (getJenkinsPods this) (getStatefulSets this) with
    | Js.Rejected error =>
        let '(out4, e) := runCatch error in
        Some ((out1 ++ out2 ++ out3 ++ out4)%list, e)
    | Js.Resolved (JArray pods, JArray statefulSets) =>
        if (Js.length pods =? 0) && (Js.length statefulSets =? 0) then
          Some ((out1 ++ out2 ++ out3 ++ noResources this)%list, Returned)
        else
          let out4 := List.flat_map (printPodInfo Date_parse now) pods in
          let out5 := printSummary pods statefulSets in
          Some ((out1 ++ out2 ++ out3 ++ out4 ++ out5)%list, Returned)
    | Js.Resolved _ => None
    end.

End Script.

(** The usage text of [--help]. *)
Definition usage : string :=
  nl ++ colors.blue ++ "Jenkins Pod Status Monitor" ++ colors.reset ++ nl ++
  nl ++
  "Usage: node jenkins-pod-monitor.js [options]" ++ nl ++
  nl ++
  "Environment Variables:" ++ nl ++
  "  JENKINS_NAMESPACE    Kubernetes namespace to search (default: cloudbees-core)" ++ nl ++
  "  JENKINS_LABEL        Label selector for pods (default: app.kubernetes.io/name=cloudbees-core)" ++ nl ++
  nl ++
  "Options:" ++ nl ++
  "  --help, -h          Show this help message" ++ nl ++
  "  --watch, -w         Watch mode (refresh every 30 seconds)" ++ nl ++
  nl ++
  "Examples:" ++ nl ++
  "  node jenkins-pod-monitor.js" ++ nl ++
  "  JENKINS_NAMESPACE=jenkins-system node jenkins-pod-monitor.js" ++ nl ++
  "  JENKINS_LABEL=" ++ dquote ++ "app=cjoc" ++ dquote ++ " node jenkins-pod-monitor.js --watch" ++ nl ++
  "  JENKINS_LABEL=" ++ dquote ++ "app=jenkins" ++ dquote ++ " node jenkins-pod-monitor.js" ++ nl.

Section Main.

Variable env : string -> option string.
Variable execAsync : string -> Js.Completion ExecOutput.
Variable JSON_parse : forall k : Kind, string -> Js.Completion (Json (Doc k)).
Variable Date_parse : string -> option Z.
Variable now : Z.
Variable localeNow : string.
Variable settlesFirst : Kind.

(** [process.argv.includes(flag)] *)
Definition argvIncludes (argv : list string) (flag : string) : bool :=
  List.existsb (String.eqb flag) argv.

(** [runMonitor] of the watch mode: one cycle. *)
Definition runMonitor (monitor : JenkinsPodMonitor) : option (list Out * RunEnd) :=
  match run execAsync JSON_parse Date_parse now localeNow settlesFirst monitor with
  | Some (out, Returned) =>
      Some ((Clear :: out
             ++ [Log (colors.dim
                      ++ "🔄 Refreshing in 30 seconds... (Press Ctrl+C to exit)"
                      ++ colors.reset)])%list, Returned)
  | Some (out, Exited code) => Some (Clear :: out, Exited code)
  | None => None
  end.

(** The script, from its arguments: the help, the first cycle of the watch
    mode (the timer then keeps the process alive), or a single run, after
    which the process ends with status 0 unless [run] has left it. *)
Definition main (argv : list string) : option (list Out * ProcessEnd) :=
  if argvIncludes argv "--help" || argvIncludes argv "-h" then
    Some ([Log usage], ExitStatus 0)
  else if argvIncludes argv "--watch" || argvIncludes argv "-w" then
    let monitor := newMonitor env in
    match runMonitor monitor with
    | Some (out, Returned) => Some (out, Alive)
    | Some (out, Exited code) => Some (out, ExitStatus code)
    | None => None
    end
  else
    let monitor := newMonitor env in
    match run execAsync JSON_parse Date_parse now localeNow settlesFirst monitor with
    | Some (out, Returned) => Some (out, ExitStatus 0)
    | Some (out, Exited code) => Some (out, ExitStatus code)
    | None => None
    end.

End Main.

(** * The vocabulary of the properties *)

(** ** Severity classes *)

(** The five severity classes of the specification and the colour the
    script gives to each. *)
Inductive Severity : Type :=
| ok
| warn
| error
| info
| muted.

Definition severityColor (c : Severity) : string :=
  match c with
  | ok => colors.green
  | warn => colors.yellow
  | error => colors.red
  | info => colors.cyan
  | muted => colors.dim
  end.

(** The phases the [switch] of [getStatusColor] names. *)
Definition namedPhases : list string :=
  ["Running"; "Pending"; "ContainerCreating"; "Failed"; "CrashLoopBackOff";
   "ImagePullBackOff"; "Succeeded"].

(** ** Health fragments *)

(** The fragments of the health summary. *)
Definition readyFragment (satisfied : bool) : string :=
  if satisfied then colors.green ++ "Ready: ✅" ++ colors.reset
  else colors.red ++ "Ready: ❌" ++ colors.reset.
Definition scheduledFragment : string :=
  colors.green ++ "Scheduled: ✅" ++ colors.reset.
Definition initializedFragment : string :=
  colors.green ++ "Initialized: ✅" ++ colors.reset.
Definition noHealthData : string :=
  colors.dim ++ "No health data" ++ colors.reset.
Definition unknownHealth : string :=
  colors.dim ++ "Unknown" ++ colors.reset.

(** The first condition of a type, as [find] gives it. *)
Definition firstOfType (type : string) (conditions : list Condition)
  : option Condition :=
  Js.find (fun c => String.eqb (cond_type c) type) conditions.

(** Whether a condition is satisfied. *)
Definition satisfied (c : Condition) : bool :=
  String.eqb (cond_status c) "True".

(** ** Counts and verdict *)

(** The number of pods in a phase. *)
Definition countPhase (ph : string) (pods : list Pod) : nat :=
  List.count_occ String.string_dec
                 (List.map (fun p => phase (pod_status p)) pods) ph.

(** The last line of the summary, for a verdict, its colour and its icon. *)
Definition verdictLine (color verdict icon : string) : Out :=
  Log (nl ++ colors.bright ++ "Overall CloudBees Core Status: " ++ color ++ verdict
       ++ colors.reset ++ " " ++ icon ++ nl).

(** A pod of a given name and phase, with nothing else set. *)
Definition barePod (name ph : string) : Pod :=
  {| pod_metadata := {| pod_name := name; ownerReferences := None |};
     pod_spec := {| nodeName := None; volumes := None |};
     pod_status := {| phase := ph; startTime := None; containerStatuses := None;
                      conditions := None |} |}.

(** ** Queries *)

(** The text by which the script recognises that nothing matches. *)
Definition noResourcesFound (e : Js.Error) : bool :=
  Js.includes (Js.message e) "No resources found".

(** The command of each query. *)
Definition podsCommand (this : JenkinsPodMonitor) : string :=
  "kubectl get pods -n " ++ namespace this ++ " -l " ++ labelSelector this
  ++ " -o json".
Definition statefulSetsCommand (this : JenkinsPodMonitor) : string :=
  "kubectl get statefulsets -n " ++ namespace this ++ " -l " ++ labelSelector this
  ++ " -o json".

(** A parsed response without an [items] field: an object that lacks the
    key, or a value that is not an object. *)
Definition noItemsField {D : Type} (data : Json D) : Prop :=
  match data with
  | JObject fields => lookup "items" fields = None
  | _ => True
  end.

(** What a fetcher owes for a query: [exec] is how the command ends,
    [parse] is [JSON.parse] at the kind of the query and [fetch] is how the
    fetcher ends. *)
Definition FetcherContract {D : Type} (exec : Js.Completion ExecOutput)
           (parse : string -> Js.Completion (Json D))
           (fetch : Js.Completion (Json D)) : Prop :=
  (* nothing matches, told by a failure of the command *)
  (forall e, exec = Js.Rejected e -> noResourcesFound e = true ->
             fetch = Js.Resolved (JArray []))
  (* nothing matches, told by an empty list *)
  /\ (forall out fields,
        exec = Js.Resolved out ->
        parse (stdout out) = Js.Resolved (JObject fields) ->
        lookup "items" fields = Some (JArray []) ->
        fetch = Js.Resolved (JArray []))
  (* the command fails otherwise: client unreachable, not authorized *)
  /\ (forall e, exec = Js.Rejected e -> noResourcesFound e = false ->
                fetch = Js.Rejected e)
  (* the response is not JSON *)
  /\ (forall out e,
        exec = Js.Resolved out -> parse (stdout out) = Js.Rejected e ->
        noResourcesFound e = false ->
        fetch = Js.Rejected e)
  (* the response is JSON, but null *)
  /\ (forall out,
        exec = Js.Resolved out -> parse (stdout out) = Js.Resolved JNull ->
        exists e, fetch = Js.Rejected e /\ Js.errName e = "TypeError")
  (* the response is not JSON, and the error of the parser holds the text *)
  /\ (forall out e,
        exec = Js.Resolved out -> parse (stdout out) = Js.Rejected e ->
        noResourcesFound e = true ->
        fetch = Js.Resolved (JArray [])).

(** ** Report lines *)

(** How the lines of a pod block and of the summary block start. *)
Definition blockPrefixes : list string :=
  [colors.bright; "   "; colors.dim ++ "   "; colors.blue ++ "╔"; "║"; "╠"; "╚";
   nl ++ colors.bright].

(** Whether a piece of output is a line of a pod block or of the summary
    block, by the way it starts. *)
Definition isBlockLine (o : Out) : bool :=
  match o with
  | Log s => List.existsb (fun p => String.prefix p s) blockPrefixes
  | _ => false
  end.

(** What a run writes when nothing is found: the header, the line of the
    search and the three lines of the outcome. *)
Definition nothingFoundReport (localeNow : string) (this : JenkinsPodMonitor)
  : list Out :=
  (printHeader localeNow this
   ++ [Log (colors.dim ++ "🔍 Searching for CloudBees Core pods and StatefulSets..."
            ++ colors.reset ++ nl)]
   ++ noResources this)%list.

(** ** A small platform for the examples *)

(** A [JSON.parse] that knows three texts: [null], an object without fields
    and a list without items. *)
Definition emptyList : string :=
  "{" ++ dquote ++ "items" ++ dquote ++ ":[]}".

Definition parseExample (k : Kind) (text : string) : Js.Completion (Json (Doc k)) :=
  if String.eqb text "null" then Js.Resolved JNull
  else if String.eqb text "{}" then Js.Resolved (JObject [])
  else if String.eqb text emptyList then Js.Resolved (JObject [("items", JArray [])])
  else Js.Rejected (Js.mkError "SyntaxError" "Unexpected end of JSON input").

(** A [kubectl] that is installed and answers every query with [answer]. *)
Definition execExample (answer : Js.Completion ExecOutput) (cmd : string)
  : Js.Completion ExecOutput :=
  if String.eqb cmd "kubectl version --client"
  then Js.Resolved (mkExecOutput "Client Version: v1.28.2" EmptyString)
  else answer.

Definition cjocMonitor : JenkinsPodMonitor :=
  newMonitor (fun name => if String.eqb name "JENKINS_LABEL" then Some "app=cjoc"
                          else None).

(** A pod of the StatefulSet [cjoc], started 65 minutes before the time of
    the examples, with a sidecar and the Jenkins container. *)
Definition exampleStart : Z := 1700000000000.
Definition exampleDate (s : string) : option Z := Some exampleStart.
Definition examplePod : Pod :=
  {| pod_metadata :=
       {| pod_name := "cjoc-0";
          ownerReferences := Some [mkOwnerReference "StatefulSet" "cjoc"] |};
     pod_spec :=
       {| nodeName := Some "node-1";
          volumes :=
            Some [mkVolume (Some (mkPersistentVolumeClaim "jenkins-home-cjoc-0"));
                  mkVolume None] |};
     pod_status :=
       {| phase := "Running";
          startTime := Some "2023-11-14T22:13:20Z";
          containerStatuses :=
            Some [mkContainerStatus "sidecar" "envoy:1" false 9 None;
                  mkContainerStatus "jenkins"
                    "docker.io/cloudbees/cloudbees-core-oc:2.4" true 0 None];
          conditions := Some [mkCondition "Ready" "True"] |} |}.

(** A [JSON.parse] that reads every answer as a list of the given pods, or
    of the given StatefulSets. *)
Definition parseCluster (pods : list Pod) (statefulSets : list StatefulSet)
           (k : Kind) (text : string) : Js.Completion (Json (Doc k)) :=
  match k with
  | PodKind => Js.Resolved (JObject [("kind", JString "List"); ("items", JArray pods)])
  | StatefulSetKind =>
      Js.Resolved (JObject [("kind", JString "List"); ("items", JArray statefulSets)])
  end.

(** ** Lines of a pod block *)

(** Whether a container is named after the product. *)
Definition namedAfterProduct (c : ContainerStatus) : bool :=
  Js.includes (cs_name c) "jenkins" || Js.includes (cs_name c) "cloudbees".

(** The lines of a pod block whose text the properties name. *)
Definition nodeLine (node : string) : Out :=
  Log ("   🖥️  Node: " ++ colors.white ++ node ++ colors.reset).
Definition uptimeLine (uptime : string) : Out :=
  Log ("   ⏱️  Uptime: " ++ colors.green ++ uptime ++ colors.reset).
Definition restartsLine (summary : string) : Out :=
  Log ("   🔄 Restarts: " ++ summary).
Definition volumesHeading : Out := Log "   💾 Persistent Volumes:".
Definition claimLine (claim : string) : Out :=
  Log ("      • " ++ colors.yellow ++ claim ++ colors.reset).
Definition containersHeading : Out := Log "   📋 Containers:".
Definition containerLine (name : string) (ready : bool) (image : string) : Out :=
  Log ("      • " ++ colors.cyan ++ name ++ colors.reset ++ ": "
       ++ (if ready then "🟢 Ready" else "🔴 Not Ready") ++ " (" ++ colors.dim
       ++ image ++ colors.reset ++ ")").

(** The line of a StatefulSet in the summary, in a colour. *)
Definition statefulSetLine (color name : string) (ready desired current : Z) : Out :=
  Log ("   • " ++ colors.cyan ++ name ++ colors.reset ++ ": " ++ color
       ++ Js.intToString ready ++ "/" ++ Js.intToString desired ++ " ready"
       ++ colors.reset ++ " (" ++ Js.intToString current ++ " current)").

(** A string without a given character. *)
Fixpoint lacks (c : ascii) (s : string) : Prop :=
  match s with
  | EmptyString => True
  | String a s' => a <> c /\ lacks c s'
  end.

(** The first bytes of a piece of output: enough to tell the lines of a pod
    block apart. *)
Definition lineStart (o : Out) : list ascii :=
  match o with
  | Log s => List.firstn 14 (list_ascii_of_string s)
  | Err s => List.firstn 14 (list_ascii_of_string s)
  | Clear => []
  end.

(** The containers of a pod: [pod.status.containerStatuses || []]. *)
Definition containersOf (pod : Pod) : list ContainerStatus :=
  match containerStatuses (pod_status pod) with
  | Some cs => cs
  | None => []
  end.

(** ** Lines of a run *)

(** The line of the search. *)
Definition searchLine : Out :=
  Log (colors.dim ++ "🔍 Searching for CloudBees Core pods and StatefulSets..."
       ++ colors.reset ++ nl).

(** The line of a missing [kubectl]. *)
Definition kubectlMissingLine : Out :=
  Err (colors.red ++ "❌ kubectl is not installed or not in PATH" ++ colors.reset).

(** The line of an error caught by [run]. *)
Definition errorLine (e : Js.Error) : Out :=
  Err (colors.red ++ "❌ Error: " ++ Js.message e ++ colors.reset).

(** The last line of a cycle of the watch mode. *)
Definition refreshLine : Out :=
  Log (colors.dim ++ "🔄 Refreshing in 30 seconds... (Press Ctrl+C to exit)"
       ++ colors.reset).

(** The arguments that the script looks for. *)
Definition helpAsked (argv : list string) : bool :=
  argvIncludes argv "--help" || argvIncludes argv "-h".
Definition watchAsked (argv : list string) : bool :=
  argvIncludes argv "--watch" || argvIncludes argv "-w".

(** An environment without variables, a refused query and the platforms of
    the examples of runs. *)
Definition noEnv (name : string) : option string := None.
Definition forbidden : Js.Error :=
  Js.mkError "Error" "Command failed: kubectl get: Forbidden".
Definition kubectlAbsent (cmd : string) : Js.Completion ExecOutput :=
  Js.Rejected (Js.mkError "Error" "Command failed: kubectl version --client").
Definition answering : string -> Js.Completion ExecOutput :=
  execExample (Js.Resolved (mkExecOutput "{...}" EmptyString)).
Definition cjocSet : StatefulSet := mkStatefulSet "cjoc" (Some 1) (Some 1) (Some 1).

(** The title of a pod block and the line that names its StatefulSet. *)
Definition titleLine (icon kind name : string) : Out :=
  Log (colors.bright ++ icon ++ " " ++ kind ++ ": " ++ colors.cyan ++ name
       ++ colors.reset).
Definition ownerLine (owner : string) : Out :=
  Log ("   🏗️  StatefulSet: " ++ colors.magenta ++ owner ++ colors.reset).

(** ** Failures that hold the text of the empty outcome *)

(** A monitor whose label selector holds the text. *)
Definition labelledNotFound : JenkinsPodMonitor :=
  newMonitor (fun name => if String.eqb name "JENKINS_LABEL"
                          then Some "app=No resources found"
                          else None).

(** The error of [exec] for a query of pods that the server refuses: the
    message holds the command, then what the command wrote on standard
    error. *)
Definition refusedPods (this : JenkinsPodMonitor) : Js.Error :=
  Js.mkError "Error"
    ("Command failed: " ++ podsCommand this ++ nl
     ++ "Error from server (Forbidden): pods is forbidden" ++ nl).

(** The error of a parser that quotes the text it cannot read. *)
Definition quotingSyntaxError : Js.Error :=
  Js.mkError "SyntaxError"
    ("Unexpected token 'N', " ++ dquote ++ "No resources found" ++ dquote
     ++ " is not valid JSON").
Definition parseQuoting (k : Kind) (text : string) : Js.Completion (Json (Doc k)) :=
  Js.Rejected quotingSyntaxError.

(** What a fetcher does with the errors that hold the text: it never raises
    one, and it turns those of the command and of the parser into an empty
    sequence; reading [items] raises none. *)
Definition SwallowsNotFound {D : Type} (exec : Js.Completion ExecOutput)
           (parse : string -> Js.Completion (Json D))
           (fetch : Js.Completion (Json D)) : Prop :=
  (forall e, fetch = Js.Rejected e -> noResourcesFound e = false)
  /\ (forall e, exec = Js.Rejected e -> noResourcesFound e = true ->
                fetch = Js.Resolved (JArray []))
  /\ (forall out e,
        exec = Js.Resolved out -> parse (stdout out) = Js.Rejected e ->
        noResourcesFound e = true ->
        fetch = Js.Resolved (JArray []))
  /\ (forall (data : Json D) e,
        get_items data = Js.Rejected e -> noResourcesFound e = false).

(** * Properties *)

(** ** Numbers and their rendering *)

Lemma intToString_0 : Js.intToString 0 = "0".
Proof. reflexivity. Qed.

(** The rendering of an integer reads back as that integer. *)
Lemma intToString_reads_back (z : Z) :
  option_map Z.of_int (NilZero.int_of_string (Js.intToString z)) = Some z.
Proof.
  unfold Js.intToString.
  rewrite NilZero.isi.
  - simpl. now rewrite DecimalZ.of_to.
  - destruct z as [|p|p]; try discriminate.
    intro H. apply (Unsigned.to_uint_nonnil p). now inversion H.
  - destruct z as [|p|p]; try discriminate.
    intro H. apply (Unsigned.to_uint_nonnil p). now inversion H.
Qed.

(** Two integers with the same rendering are equal. *)
Lemma intToString_inj (x y : Z) :
  Js.intToString x = Js.intToString y -> x = y.
Proof.
  intro H.
  pose proof (intToString_reads_back x) as Hx.
  pose proof (intToString_reads_back y) as Hy.
  rewrite H in Hx. congruence.
Qed.

(** The rendering of a negative integer starts with a minus sign, and only
    that of a negative integer does. *)
Lemma intToString_minus (z : Z) :
  String.prefix "-" (Js.intToString z) = true <-> z < 0.
Proof.
  unfold Js.intToString. destruct z as [|p|p]; simpl.
  - split; [discriminate | lia].
  - split; [|lia]. intro H. exfalso.
    unfold NilZero.string_of_uint in H.
    pose proof (Unsigned.to_uint_nonnil p) as Hn.
    destruct (Pos.to_uint p); simpl in H; try discriminate; congruence.
  - split; [lia | intros _].
    now destruct (NilZero.string_of_uint (Pos.to_uint p)).
Qed.

(** A prefix of a string is a prefix of what extends it. *)
Lemma prefix_append (p s t : string) :
  String.prefix p s = true -> String.prefix p (s ++ t) = true.
Proof.
  revert s. induction p as [|a p IH]; intros s H.
  - now destruct (s ++ t).
  - destruct s as [|b s]; [discriminate|].
    cbn [String.prefix String.append] in *.
    destruct (ascii_dec a b); [auto | discriminate].
Qed.

(** ** Uptime *)

Section UptimeFacts.

Variable Date_parse : string -> option Z.

(** [formatUptime] on a valid date, by the elapsed time alone. *)
Lemma formatUptime_valid (now start : Z) (startTime : string) :
  Date_parse startTime = Some start ->
  formatUptime Date_parse now startTime =
    let diffMs := now - start in
    let days := diffMs / 86400000 in
    let hours := Z.rem diffMs 86400000 / 3600000 in
    let minutes := Z.rem diffMs 3600000 / 60000 in
    if 0 <? days then
      Js.intToString days ++ "d " ++ Js.intToString hours ++ "h "
      ++ Js.intToString minutes ++ "m"
    else if 0 <? hours then
      Js.intToString hours ++ "h " ++ Js.intToString minutes ++ "m"
    else Js.intToString minutes ++ "m".
Proof.
  intro Hp. unfold formatUptime, Date_new. rewrite Hp. reflexivity.
Qed.

(** Without a valid date every field is [NaN]. *)
Lemma formatUptime_invalid (now : Z) (startTime : string) :
  Date_parse startTime = None ->
  formatUptime Date_parse now startTime = "NaNm".
Proof.
  intro Hp. unfold formatUptime, Date_new. rewrite Hp. reflexivity.
Qed.

End UptimeFacts.

(** The fields of a non-negative elapsed time: the remainders of the script
    are the leftover hours and minutes. *)
Lemma uptime_fields_nonneg (diffMs : Z) :
  0 <= diffMs ->
  0 <= diffMs / 86400000
  /\ Z.rem diffMs 86400000 / 3600000 = (diffMs / 3600000) mod 24
  /\ Z.rem diffMs 3600000 / 60000 = (diffMs / 60000) mod 60.
Proof.
  intro H.
  rewrite !Z.rem_mod_nonneg by lia.
  repeat split.
  - apply Z.div_pos; lia.
  - change 86400000 with (3600000 * 24).
    rewrite Z.rem_mul_r by lia.
    rewrite Z.mul_comm, Z.div_add by lia.
    rewrite Z.div_small by (apply Z.mod_pos_bound; lia). lia.
  - change 3600000 with (60000 * 60).
    rewrite Z.rem_mul_r by lia.
    rewrite Z.mul_comm, Z.div_add by lia.
    rewrite Z.div_small by (apply Z.mod_pos_bound; lia). lia.
Qed.

(** The minutes field of an elapsed time that is not positive. *)
Lemma uptime_fields_nonpos (diffMs : Z) :
  diffMs <= 0 ->
  diffMs / 86400000 <= 0
  /\ Z.rem diffMs 86400000 / 3600000 <= 0
  /\ -60 <= Z.rem diffMs 3600000 / 60000 <= 0.
Proof.
  intro H.
  pose proof (Z.rem_bound_pos_neg diffMs 86400000 ltac:(lia) H) as H1.
  pose proof (Z.rem_bound_pos_neg diffMs 3600000 ltac:(lia) H) as H2.
  repeat split.
  - apply Z.div_le_upper_bound; lia.
  - apply Z.div_le_upper_bound; lia.
  - apply Z.div_le_lower_bound; lia.
  - apply Z.div_le_upper_bound; lia.
Qed.

(** C3. For a valid start date that is not after [now], with [d], [h] and
    [m] the whole days, the leftover whole hours and the leftover whole
    minutes of the elapsed time: [h] is below 24, [m] is below 60, and
    [formatUptime] renders [{d}d {h}h {m}m] when [d > 0], [{h}h {m}m] when
    [d = 0] and [h > 0], and [{m}m] otherwise. *)
Theorem formatUptime_nonnegative_elapsed
        (Date_parse : string -> option Z) (now start : Z) (startTime : string) :
  Date_parse startTime = Some start ->
  start <= now ->
  let elapsed := now - start in
  let d := elapsed / 86400000 in
  let h := (elapsed / 3600000) mod 24 in
  let m := (elapsed / 60000) mod 60 in
  0 <= d /\ 0 <= h < 24 /\ 0 <= m < 60
  /\ (0 < d ->
      formatUptime Date_parse now startTime =
        Js.intToString d ++ "d " ++ Js.intToString h ++ "h " ++ Js.intToString m ++ "m")
  /\ (d = 0 -> 0 < h ->
      formatUptime Date_parse now startTime =
        Js.intToString h ++ "h " ++ Js.intToString m ++ "m")
  /\ (d = 0 -> h = 0 ->
      formatUptime Date_parse now startTime = Js.intToString m ++ "m").
Proof.
  intros Hp Hle elapsed d h m.
  destruct (uptime_fields_nonneg (now - start) ltac:(lia)) as (Hd & Hh & Hm).
  fold elapsed in Hd, Hh, Hm. fold d in Hd. fold h in Hh. fold m in Hm.
  rewrite (formatUptime_valid Date_parse now start startTime Hp). cbv zeta.
  fold elapsed. rewrite Hh, Hm. fold d.
  assert (Hhb : 0 <= h < 24) by (apply Z.mod_pos_bound; lia).
  assert (Hmb : 0 <= m < 60) by (apply Z.mod_pos_bound; lia).
  repeat split; try lia.
  - intro H. now replace (0 <? d) with true by (symmetry; apply Z.ltb_lt; lia).
  - intros H0 H. rewrite H0. simpl (0 <? 0).
    now replace (0 <? h) with true by (symmetry; apply Z.ltb_lt; lia).
  - intros H0 H1. rewrite H0, H1. reflexivity.
Qed.

(** The example of the specification: 65 minutes of uptime read [1h 5m]. *)
Lemma formatUptime_nonnegative_elapsed_witness :
  let Date_parse := fun _ : string => Some 1700000000000 in
  let now := 1700000000000 + 65 * 60000 in
  now - 1700000000000 = 3900000
  /\ formatUptime Date_parse now "2023-11-14T22:13:20Z" = "1h 5m".
Proof.
  intros Date_parse now. split; [reflexivity|].
  destruct (formatUptime_nonnegative_elapsed Date_parse now 1700000000000
              "2023-11-14T22:13:20Z"
              eq_refl ltac:(vm_compute; discriminate))
    as (_ & _ & _ & _ & H & _).
  rewrite H; reflexivity.
Defined.

(** C1, as the specification states it, fails: a start date one minute
    after [now] is rendered [-1m], not [0m]. *)
Lemma formatUptime_future_start_not_clamped :
  let Date_parse := fun _ : string => Some 120000 in
  60000 <= 120000
  /\ formatUptime Date_parse 60000 "1970-01-01T00:02:00Z" = "-1m"
  /\ formatUptime Date_parse 60000 "1970-01-01T00:02:00Z" <> "0m".
Proof.
  intro Date_parse. split; [lia|]. split; [reflexivity|]. discriminate.
Qed.

(** C1, amended.  For a valid start date at or after [now], [formatUptime]
    never takes the day or the hour form: it renders [{m}m], where [m] is
    the floor of the truncated remainder of the elapsed time by an hour,
    in minutes.  That [m] is between -60 and 0, it is 0 exactly when the
    elapsed time is a whole number of hours, and the output then is [0m],
    as it is when the start date is [now]; otherwise the output starts with
    a minus sign. *)
Theorem formatUptime_start_not_before_now
        (Date_parse : string -> option Z) (now start : Z) (startTime : string) :
  Date_parse startTime = Some start ->
  now <= start ->
  let elapsed := now - start in
  let m := Z.rem elapsed 3600000 / 60000 in
  formatUptime Date_parse now startTime = Js.intToString m ++ "m"
  /\ -60 <= m <= 0
  /\ (m = 0 <-> Z.rem elapsed 3600000 = 0)
  /\ (Z.rem elapsed 3600000 = 0 -> formatUptime Date_parse now startTime = "0m")
  /\ (start = now -> formatUptime Date_parse now startTime = "0m")
  /\ (Z.rem elapsed 3600000 <> 0 ->
      String.prefix "-" (formatUptime Date_parse now startTime) = true).
Proof.
  intros Hp Hle elapsed m.
  destruct (uptime_fields_nonpos (now - start) ltac:(lia)) as (Hd & Hh & Hm).
  fold elapsed in Hd, Hh, Hm. fold m in Hm.
  assert (Hfmt : formatUptime Date_parse now startTime = Js.intToString m ++ "m").
  { rewrite (formatUptime_valid Date_parse now start startTime Hp). cbv zeta.
    fold elapsed.
    replace (0 <? elapsed / 86400000) with false by (symmetry; apply Z.ltb_ge; lia).
    replace (0 <? Z.rem elapsed 86400000 / 3600000) with false
      by (symmetry; apply Z.ltb_ge; lia).
    reflexivity. }
  assert (Hzero : m = 0 <-> Z.rem elapsed 3600000 = 0).
  { pose proof (Z.rem_bound_pos_neg elapsed 3600000 ltac:(lia) ltac:(lia)) as Hr.
    unfold m. split; intro H.
    - apply Z.div_small_iff in H; lia.
    - rewrite H. reflexivity. }
  repeat split; try lia; try tauto.
  - intro H. rewrite Hfmt. apply Hzero in H. rewrite H. reflexivity.
  - intro H. rewrite Hfmt. unfold m, elapsed. subst start.
    rewrite Z.sub_diag. reflexivity.
  - intro H. rewrite Hfmt.
    assert (Hneg : m < 0) by (destruct Hzero as [Hz _]; lia).
    apply intToString_minus in Hneg.
    now apply prefix_append.
Qed.

(** A start date equal to [now] reads [0m]; one minute later reads [-1m]. *)
Lemma formatUptime_start_not_before_now_witness :
  let Date_parse := fun s : string =>
    if String.eqb s "1970-01-01T00:02:00Z" then Some 120000 else Some 60000 in
  formatUptime Date_parse 60000 "1970-01-01T00:01:00Z" = "0m"
  /\ formatUptime Date_parse 60000 "1970-01-01T00:02:00Z" = "-1m".
Proof.
  intro Date_parse. split.
  - destruct (formatUptime_start_not_before_now Date_parse 60000 60000
                "1970-01-01T00:01:00Z" eq_refl ltac:(lia))
      as (_ & _ & _ & _ & H & _).
    exact (H eq_refl).
  - destruct (formatUptime_start_not_before_now Date_parse 60000 120000
                "1970-01-01T00:02:00Z" eq_refl ltac:(lia))
      as (H & _).
    rewrite H. reflexivity.
Defined.

(** ** Status colours *)

Lemma severityColor_inj (c1 c2 : Severity) :
  severityColor c1 = severityColor c2 -> c1 = c2.
Proof.
  destruct c1, c2; intro H; try reflexivity; vm_compute in H; discriminate.
Qed.

Lemma getStatusColor_default (status : string) :
  ~ In status namedPhases -> getStatusColor status = colors.dim.
Proof.
  intro H. unfold getStatusColor.
  repeat match goal with
  | |- context [String.eqb status ?s] =>
      destruct (String.eqb_spec status s) as [->|_];
      [exfalso; apply H; simpl; tauto|]
  end.
  reflexivity.
Qed.

(** C8. [getStatusColor] gives every string exactly one of the five
    classes: Running is ok; Pending and ContainerCreating are warn; Failed,
    CrashLoopBackOff and ImagePullBackOff are error; Succeeded is info;
    every other string is muted. *)
Theorem getStatusColor_total_classification :
  (forall status : string, exists! c : Severity,
      getStatusColor status = severityColor c)
  /\ getStatusColor "Running" = severityColor ok
  /\ getStatusColor "Pending" = severityColor warn
  /\ getStatusColor "ContainerCreating" = severityColor warn
  /\ getStatusColor "Failed" = severityColor error
  /\ getStatusColor "CrashLoopBackOff" = severityColor error
  /\ getStatusColor "ImagePullBackOff" = severityColor error
  /\ getStatusColor "Succeeded" = severityColor info
  /\ (forall status : string,
         ~ In status namedPhases -> getStatusColor status = severityColor muted).
Proof.
  split; [|repeat split; try reflexivity; apply getStatusColor_default].
  intro status.
  assert (H : exists c, getStatusColor status = severityColor c).
  { unfold getStatusColor.
    repeat match goal with
    | |- context [String.eqb status ?s] => destruct (String.eqb status s); simpl
    end;
    first [ now exists ok | now exists warn | now exists error
          | now exists info | now exists muted ]. }
  destruct H as [c Hc]. exists c. split; [exact Hc|].
  intros c' Hc'. apply severityColor_inj. congruence.
Qed.

(** The phase [Unknown], which the [switch] does not name, is muted. *)
Lemma getStatusColor_total_classification_witness :
  getStatusColor "Unknown" = severityColor muted.
Proof.
  destruct getStatusColor_total_classification as (_ & _ & _ & _ & _ & _ & _ & _ & H).
  apply H. simpl. intros [H0|[H0|[H0|[H0|[H0|[H0|[H0|[]]]]]]]]; discriminate H0.
Defined.

(** ** Restart summary *)

(** C4. With a restart count of 0 the summary is [No restarts], whatever the
    timestamp.  With a positive count the summary is the count in the colour
    of its severity (error above 5, warn above 2, info otherwise) followed by
    the time since the last termination: what [formatUptime] gives for the
    timestamp, or [unknown] when there is none. *)
Theorem formatRestartInfo_summary
        (Date_parse : string -> option Z) (now restartCount : Z)
        (lastRestartTime : option string) :
  (restartCount = 0 ->
   formatRestartInfo Date_parse now restartCount lastRestartTime =
     colors.green ++ "No restarts" ++ colors.reset)
  /\ (0 < restartCount ->
      exists (severity : Severity) (timeAgo : string),
        formatRestartInfo Date_parse now restartCount lastRestartTime =
          severityColor severity ++ Js.intToString restartCount ++ " restarts"
          ++ colors.reset ++ " " ++ colors.dim ++ "(last: " ++ timeAgo ++ " ago)"
          ++ colors.reset
        /\ (5 < restartCount -> severity = error)
        /\ (2 < restartCount <= 5 -> severity = warn)
        /\ (restartCount <= 2 -> severity = info)
        /\ (lastRestartTime = None -> timeAgo = "unknown")
        /\ (lastRestartTime = Some EmptyString -> timeAgo = "unknown")
        /\ (forall t, lastRestartTime = Some t -> t <> EmptyString ->
                      timeAgo = formatUptime Date_parse now t)).
Proof.
  split.
  - intros ->. reflexivity.
  - intro Hpos. unfold formatRestartInfo.
    replace (restartCount =? 0) with false by (symmetry; apply Z.eqb_neq; lia).
    exists (if 5 <? restartCount then error
            else if 2 <? restartCount then warn else info).
    exists (match lastRestartTime with
            | Some t => if Js.truthy t then formatUptime Date_parse now t
                        else "unknown"
            | None => "unknown"
            end).
    repeat split.
    + destruct (5 <? restartCount); [reflexivity|].
      destruct (2 <? restartCount); reflexivity.
    + intro H. now replace (5 <? restartCount) with true
        by (symmetry; apply Z.ltb_lt; lia).
    + intro H. replace (5 <? restartCount) with false
        by (symmetry; apply Z.ltb_ge; lia).
      now replace (2 <? restartCount) with true by (symmetry; apply Z.ltb_lt; lia).
    + intro H. replace (5 <? restartCount) with false
        by (symmetry; apply Z.ltb_ge; lia).
      now replace (2 <? restartCount) with false by (symmetry; apply Z.ltb_ge; lia).
    + intros ->. reflexivity.
    + intros ->. reflexivity.
    + intros t -> Ht. destruct t; [congruence | reflexivity].
Qed.

(** The example of the specification: 7 restarts, the last one 10 minutes
    ago, are an error with [10m]; and no restart reads [No restarts]. *)
Lemma formatRestartInfo_summary_witness :
  let Date_parse := fun _ : string => Some 1700000000000 in
  let now := 1700000000000 + 10 * 60000 in
  formatRestartInfo Date_parse now 0 (Some "2023-11-14T22:13:20Z") =
    colors.green ++ "No restarts" ++ colors.reset
  /\ formatRestartInfo Date_parse now 7 (Some "2023-11-14T22:13:20Z") =
       severityColor error ++ "7 restarts" ++ colors.reset ++ " " ++ colors.dim
       ++ "(last: 10m ago)" ++ colors.reset.
Proof.
  intros Date_parse now. split.
  - exact (proj1 (formatRestartInfo_summary Date_parse now 0
                    (Some "2023-11-14T22:13:20Z")) eq_refl).
  - destruct (proj2 (formatRestartInfo_summary Date_parse now 7
                       (Some "2023-11-14T22:13:20Z")) eq_refl)
      as (severity & timeAgo & Hfmt & Herr & _ & _ & _ & _ & Htime).
    rewrite Hfmt, (Herr eq_refl), (Htime _ eq_refl ltac:(discriminate)).
    reflexivity.
Defined.

(** ** Health summary *)

(** The [health] array, fragment by fragment. *)
Lemma healthFragments_parts (conditions : list Condition) :
  healthFragments conditions =
    (match firstOfType "Ready" conditions with
     | Some r => [readyFragment (satisfied r)]
     | None => []
     end
     ++ match firstOfType "PodScheduled" conditions with
        | Some s => if satisfied s then [scheduledFragment] else []
        | None => []
        end
     ++ match firstOfType "Initialized" conditions with
        | Some i => if satisfied i then [initializedFragment] else []
        | None => []
        end)%list.
Proof.
  unfold healthFragments, firstOfType, satisfied, readyFragment, Js.push.
  cbv zeta.
  destruct (Js.find (fun c => String.eqb (cond_type c) "Ready") conditions) as [r|];
    destruct (Js.find (fun c => String.eqb (cond_type c) "PodScheduled") conditions)
      as [s|];
    destruct (Js.find (fun c => String.eqb (cond_type c) "Initialized") conditions)
      as [i|];
    try destruct (String.eqb (cond_status r) "True");
    try destruct (String.eqb (cond_status s) "True");
    try destruct (String.eqb (cond_status i) "True");
    reflexivity.
Qed.

(** A condition of a type is in the sequence exactly when [find] gives one. *)
Lemma firstOfType_present (type : string) (conditions : list Condition) :
  (exists c, In c conditions /\ cond_type c = type)
  <-> (exists c, firstOfType type conditions = Some c).
Proof.
  unfold firstOfType, Js.find. split.
  - intros (c & Hin & Hty).
    destruct (List.find _ conditions) as [c'|] eqn:Hf; [now exists c'|].
    apply (List.find_none _ _ Hf) in Hin. simpl in Hin.
    rewrite Hty, String.eqb_refl in Hin. discriminate.
  - intros (c & Hf). apply List.find_some in Hf. destruct Hf as [Hin Hty].
    exists c. split; [exact Hin|]. now apply String.eqb_eq.
Qed.

(** Joining fragments of which none is empty gives the empty string only
    for no fragment at all. *)
Lemma join_truthy (sep : string) (l : list string) :
  l <> [] -> (forall x, In x l -> x <> EmptyString) ->
  Js.truthy (Js.join sep l) = true.
Proof.
  intros Hne Hall. destruct l as [|x xs]; [congruence|].
  assert (Hx : x <> EmptyString) by (apply Hall; now left).
  destruct x as [|a x]; [congruence|].
  simpl. now destruct xs.
Qed.

Lemma healthFragments_nonempty_strings (conditions : list Condition) (x : string) :
  In x (healthFragments conditions) -> x <> EmptyString.
Proof.
  rewrite healthFragments_parts. intro H.
  repeat (apply in_app_or in H; destruct H as [H|H]);
    repeat match type of H with
    | In _ (match ?o with Some _ => _ | None => _ end) => destruct o
    | In _ (if ?b then _ else _) => destruct b
    end;
    simpl in H; try tauto;
    destruct H as [<-|[]]; try discriminate.
  unfold readyFragment; destruct (satisfied _); discriminate.
Qed.

(** [formatHealthStatus] on a sequence that is not empty. *)
Lemma formatHealthStatus_conditions (conditions : list Condition) :
  conditions <> [] ->
  formatHealthStatus (Some conditions) =
    match healthFragments conditions with
    | [] => unknownHealth
    | _ :: _ => Js.join " | " (healthFragments conditions)
    end.
Proof.
  intro Hne. unfold formatHealthStatus.
  replace (Js.length conditions =? 0) with false
    by (destruct conditions; [congruence | reflexivity]).
  destruct (healthFragments conditions) as [|f fs] eqn:Hf; [reflexivity|].
  rewrite join_truthy; [reflexivity | discriminate |].
  intros x Hx. apply (healthFragments_nonempty_strings conditions).
  now rewrite Hf.
Qed.

Lemma fragments_distinct :
  (forall b, readyFragment b <> scheduledFragment)
  /\ (forall b, readyFragment b <> initializedFragment)
  /\ scheduledFragment <> initializedFragment.
Proof.
  split; [|split].
  - intros [] H; vm_compute in H; discriminate.
  - intros [] H; vm_compute in H; discriminate.
  - intro H; vm_compute in H; discriminate.
Qed.

(** The summary has a Scheduled fragment exactly when the first
    PodScheduled condition is satisfied. *)
Lemma scheduled_reported (conditions : list Condition) :
  In scheduledFragment (healthFragments conditions)
  <-> (exists s, firstOfType "PodScheduled" conditions = Some s
                 /\ satisfied s = true).
Proof.
  destruct fragments_distinct as (Hrs & _ & Hsi).
  rewrite healthFragments_parts, !in_app_iff.
  destruct (firstOfType "Ready" conditions) as [r|];
    destruct (firstOfType "PodScheduled" conditions) as [s|];
    destruct (firstOfType "Initialized" conditions) as [i|];
    try destruct (satisfied s) eqn:Hs; try destruct (satisfied i);
    simpl; split;
    try (intros _; eexists; split; [reflexivity | assumption]);
    try (intros (s' & Heq & Hs'); congruence);
    try tauto;
    intros H; exfalso; decompose [or] H; try tauto;
    try (eapply Hrs; eassumption); try (apply Hsi; congruence).
Qed.

(** The summary has an Initialized fragment exactly when the first
    Initialized condition is satisfied. *)
Lemma initialized_reported (conditions : list Condition) :
  In initializedFragment (healthFragments conditions)
  <-> (exists i, firstOfType "Initialized" conditions = Some i
                 /\ satisfied i = true).
Proof.
  destruct fragments_distinct as (_ & Hri & Hsi).
  rewrite healthFragments_parts, !in_app_iff.
  destruct (firstOfType "Ready" conditions) as [r|];
    destruct (firstOfType "PodScheduled" conditions) as [s|];
    destruct (firstOfType "Initialized" conditions) as [i|];
    try destruct (satisfied s); try destruct (satisfied i) eqn:Hi;
    simpl; split;
    try (intros _; eexists; split; [reflexivity | assumption]);
    try (intros (i' & Heq & Hi'); congruence);
    try tauto;
    intros H; exfalso; decompose [or] H; try tauto;
    try (eapply Hri; eassumption); try (apply Hsi; congruence).
Qed.

(** No fragment qualifies exactly when there is no Ready condition and
    neither the first PodScheduled nor the first Initialized condition is
    satisfied. *)
Lemma healthFragments_none (conditions : list Condition) :
  healthFragments conditions = []
  <-> firstOfType "Ready" conditions = None
      /\ (forall s, firstOfType "PodScheduled" conditions = Some s ->
                    satisfied s = false)
      /\ (forall i, firstOfType "Initialized" conditions = Some i ->
                    satisfied i = false).
Proof.
  rewrite healthFragments_parts.
  destruct (firstOfType "Ready" conditions) as [r|];
    destruct (firstOfType "PodScheduled" conditions) as [s|];
    destruct (firstOfType "Initialized" conditions) as [i|];
    try destruct (satisfied s) eqn:Hs; try destruct (satisfied i) eqn:Hi;
    simpl; (split; [intro H | intros (H1 & H2 & H3)]);
    try discriminate;
    try reflexivity;
    try (specialize (H2 _ eq_refl); congruence);
    try (specialize (H3 _ eq_refl); congruence);
    repeat split; try reflexivity; intros x Hx; congruence.
Qed.

(** C5. The health summary is never the empty string.  Without conditions,
    or with an empty sequence, it is the [No health data] fragment; when no
    condition qualifies it is the [Unknown] fragment; otherwise it joins the
    fragments.  A Ready condition that is present is reported, satisfied or
    not; PodScheduled and Initialized are reported exactly when they are
    satisfied. *)
Theorem formatHealthStatus_never_blank :
  (forall conditions, formatHealthStatus conditions <> EmptyString)
  /\ formatHealthStatus None = noHealthData
  /\ formatHealthStatus (Some []) = noHealthData
  /\ (forall conditions, conditions <> [] ->
        healthFragments conditions = [] ->
        formatHealthStatus (Some conditions) = unknownHealth)
  /\ (forall conditions, conditions <> [] ->
        healthFragments conditions <> [] ->
        formatHealthStatus (Some conditions) =
          Js.join " | " (healthFragments conditions))
  /\ (forall conditions,
        healthFragments conditions = []
        <-> firstOfType "Ready" conditions = None
            /\ (forall s, firstOfType "PodScheduled" conditions = Some s ->
                          satisfied s = false)
            /\ (forall i, firstOfType "Initialized" conditions = Some i ->
                          satisfied i = false))
  /\ (forall conditions,
        (exists c, In c conditions /\ cond_type c = "Ready") ->
        exists r, firstOfType "Ready" conditions = Some r
                  /\ In (readyFragment (satisfied r)) (healthFragments conditions))
  /\ (forall conditions,
        In scheduledFragment (healthFragments conditions)
        <-> (exists s, firstOfType "PodScheduled" conditions = Some s
                       /\ satisfied s = true))
  /\ (forall conditions,
        In initializedFragment (healthFragments conditions)
        <-> (exists i, firstOfType "Initialized" conditions = Some i
                       /\ satisfied i = true)).
Proof.
  assert (Hunknown : forall conditions, conditions <> [] ->
            healthFragments conditions = [] ->
            formatHealthStatus (Some conditions) = unknownHealth).
  { intros conditions Hne Hf.
    now rewrite (formatHealthStatus_conditions conditions Hne), Hf. }
  assert (Hjoin : forall conditions, conditions <> [] ->
            healthFragments conditions <> [] ->
            formatHealthStatus (Some conditions) =
              Js.join " | " (healthFragments conditions)).
  { intros conditions Hne Hf.
    rewrite (formatHealthStatus_conditions conditions Hne).
    destruct (healthFragments conditions); [congruence | reflexivity]. }
  split; [|split; [reflexivity|split; [reflexivity|]]].
  - intros [[|c cs]|]; try discriminate.
    destruct (healthFragments (c :: cs)) as [|f fs] eqn:Hf.
    + rewrite Hunknown by (assumption || discriminate). discriminate.
    + rewrite Hjoin by (congruence || discriminate).
      intro H.
      assert (Ht : Js.truthy (Js.join " | " (healthFragments (c :: cs))) = true).
      { apply join_truthy; [congruence|].
        apply healthFragments_nonempty_strings. }
      rewrite H in Ht. discriminate.
  - split; [exact Hunknown|]. split; [exact Hjoin|].
    split; [exact healthFragments_none|].
    split; [|split; [exact scheduled_reported | exact initialized_reported]].
    intros conditions Hex.
    apply firstOfType_present in Hex. destruct Hex as [r Hr].
    exists r. split; [exact Hr|].
    rewrite healthFragments_parts, Hr. now left.
Qed.

(** A pod that is scheduled but not ready: both fragments, joined. *)
Lemma formatHealthStatus_never_blank_witness :
  formatHealthStatus
    (Some [mkCondition "PodScheduled" "True"; mkCondition "Ready" "False"])
  = readyFragment false ++ " | " ++ scheduledFragment
  /\ formatHealthStatus (Some [mkCondition "ContainersReady" "False"])
     = unknownHealth.
Proof.
  destruct formatHealthStatus_never_blank as (_ & _ & _ & Hunknown & Hjoin & _).
  split.
  - rewrite Hjoin; [reflexivity | discriminate | vm_compute; discriminate].
  - apply Hunknown; [discriminate | reflexivity].
Defined.

(** ** Overall health verdict *)

Lemma filter_phase_length (ph : string) (pods : list Pod) :
  Js.length (Js.filter (fun p => String.eqb (phase (pod_status p)) ph) pods)
  = Z.of_nat (countPhase ph pods).
Proof.
  unfold Js.length, Js.filter, countPhase. f_equal.
  induction pods as [|p pods IH]; [reflexivity|].
  simpl. destruct (String.eqb_spec (phase (pod_status p)) ph) as [Heq|Hne];
    destruct (String.string_dec (phase (pod_status p)) ph); try congruence.
  simpl. now rewrite IH.
Qed.

Lemma countPhase_le_length (ph : string) (pods : list Pod) :
  (countPhase ph pods <= List.length pods)%nat.
Proof.
  unfold countPhase.
  induction pods as [|p pods IH]; simpl; [lia|].
  destruct (String.string_dec _ _); lia.
Qed.

(** C2. With [total] the number of pods, [running] the number of pods in
    phase Running and [failed] the number in phase Failed, the verdict of the
    summary is HEALTHY exactly when [total > 0] and [running = total],
    UNHEALTHY exactly when that fails and [failed > 0], and DEGRADED in every
    other case, the one without pods included; the summary ends with the line
    of that verdict. *)
Theorem printSummary_health_verdict (pods : list Pod) (statefulSets : list StatefulSet) :
  let total := List.length pods in
  let running := countPhase "Running" pods in
  let failed := countPhase "Failed" pods in
  let healthy := (0 < total /\ running = total)%nat in
  totalPods pods = Z.of_nat total
  /\ runningPods pods = Z.of_nat running
  /\ failedPods pods = Z.of_nat failed
  /\ (healthStatus pods = "HEALTHY" <-> healthy)
  /\ (healthStatus pods = "UNHEALTHY" <-> ~ healthy /\ (0 < failed)%nat)
  /\ (healthStatus pods = "DEGRADED" <-> ~ healthy /\ failed = 0%nat)
  /\ (total = 0%nat -> healthStatus pods = "DEGRADED")
  /\ (exists front,
        printSummary pods statefulSets =
          (front ++ [if String.eqb (healthStatus pods) "HEALTHY"
                     then verdictLine colors.green "HEALTHY" "🟢"
                     else if String.eqb (healthStatus pods) "UNHEALTHY"
                          then verdictLine colors.red "UNHEALTHY" "🔴"
                          else verdictLine colors.yellow "DEGRADED" "🟡"])%list).
Proof.
  intros total running failed healthy.
  assert (Ht : totalPods pods = Z.of_nat total) by reflexivity.
  assert (Hr : runningPods pods = Z.of_nat running)
    by apply filter_phase_length.
  assert (Hf : failedPods pods = Z.of_nat failed)
    by apply filter_phase_length.
  assert (Hcases :
            (healthy /\ healthStatus pods = "HEALTHY")
            \/ (~ healthy /\ (0 < failed)%nat /\ healthStatus pods = "UNHEALTHY")
            \/ (~ healthy /\ failed = 0%nat /\ healthStatus pods = "DEGRADED")).
  { unfold healthStatus. rewrite Ht, Hr, Hf. unfold healthy.
    destruct (Z.eqb_spec (Z.of_nat running) (Z.of_nat total));
      destruct (Z.ltb_spec 0 (Z.of_nat total));
      destruct (Z.ltb_spec 0 (Z.of_nat failed)); simpl;
      first [ left; split; [lia | reflexivity]
            | right; left; split; [lia | split; [lia | reflexivity]]
            | right; right; split; [lia | split; [lia | reflexivity]] ]. }
  assert (Hne : (failed <= total)%nat) by apply countPhase_le_length.
  split; [exact Ht|]. split; [exact Hr|]. split; [exact Hf|].
  split; [|split; [|split; [|split]]].
  - destruct Hcases as [[Hh H]|[(Hh & _ & H)|(Hh & _ & H)]]; rewrite H;
      (split; [intro H0; (exact Hh || discriminate H0) | intro H0; tauto]).
  - destruct Hcases as [[Hh H]|[(Hh & Hpos & H)|(Hh & Hz & H)]]; rewrite H;
      (split; [intro H0; ((split; assumption) || discriminate H0)
              | intros [H0 H1]; (reflexivity || tauto || lia)]).
  - destruct Hcases as [[Hh H]|[(Hh & Hpos & H)|(Hh & Hz & H)]]; rewrite H;
      (split; [intro H0; ((split; assumption) || discriminate H0)
              | intros [H0 H1]; (reflexivity || tauto || lia)]).
  - intro H0. destruct Hcases as [[[Hh _] _]|[(_ & Hpos & _)|(_ & _ & H)]];
      [lia | lia | exact H].
  - unfold printSummary.
    eexists. rewrite app_assoc. f_equal. unfold healthColor, verdictLine.
    destruct Hcases as [[_ H']|[(_ & _ & H')|(_ & _ & H')]]; rewrite H'; reflexivity.
Qed.

(** One pod running and one failed: UNHEALTHY; a single running pod:
    HEALTHY; no pod at all: DEGRADED. *)
Lemma printSummary_health_verdict_witness :
  healthStatus [barePod "cjoc-0" "Running"; barePod "cjoc-1" "Failed"] = "UNHEALTHY"
  /\ healthStatus [barePod "cjoc-0" "Running"] = "HEALTHY"
  /\ healthStatus [] = "DEGRADED".
Proof.
  split; [|split].
  - destruct (printSummary_health_verdict
                [barePod "cjoc-0" "Running"; barePod "cjoc-1" "Failed"] [])
      as (_ & _ & _ & _ & H & _).
    apply H. vm_compute. split; [|lia]. intros [_ H0]. discriminate H0.
  - destruct (printSummary_health_verdict [barePod "cjoc-0" "Running"] [])
      as (_ & _ & _ & H & _).
    apply H. vm_compute. split; [lia | reflexivity].
  - destruct (printSummary_health_verdict [] []) as (_ & _ & _ & _ & _ & _ & H & _).
    apply H. reflexivity.
Defined.

(** ** StatefulSet affiliation *)

Lemma some_StatefulSet_false (refs : list OwnerReference) :
  (forall x, In x refs -> ref_kind x <> "StatefulSet") ->
  Js.some isStatefulSetRef refs = false /\ Js.find isStatefulSetRef refs = None.
Proof.
  intro H. induction refs as [|x refs IH]; [now split|].
  unfold Js.some, Js.find in *. simpl.
  assert (Hx : isStatefulSetRef x = false).
  { unfold isStatefulSetRef. apply String.eqb_neq. apply H. now left. }
  rewrite Hx. simpl. apply IH. intros y Hy. apply H. now right.
Qed.

(** The first StatefulSet reference decides: the detection is true and the
    name is that of this reference. *)
Lemma first_StatefulSet_ref (before after : list OwnerReference) (r : OwnerReference) :
  ref_kind r = "StatefulSet" ->
  (forall x, In x before -> ref_kind x <> "StatefulSet") ->
  Js.some isStatefulSetRef (before ++ r :: after) = true
  /\ Js.find isStatefulSetRef (before ++ r :: after) = Some r.
Proof.
  intros Hr Hb.
  assert (Hrr : isStatefulSetRef r = true)
    by (unfold isStatefulSetRef; now apply String.eqb_eq).
  induction before as [|x before IH]; unfold Js.some, Js.find in *; simpl.
  - now rewrite Hrr.
  - assert (Hx : isStatefulSetRef x = false).
    { unfold isStatefulSetRef. apply String.eqb_neq. apply Hb. now left. }
    rewrite Hx. simpl. apply IH. intros y Hy. apply Hb. now right.
Qed.

(** C9. A pod without owner references, or with an empty sequence of them,
    is not affiliated to a StatefulSet: the detection is absent or false and
    there is no name.  A pod whose owner references hold exactly one entry of
    kind StatefulSet is affiliated, and the name is that of this entry. *)
Theorem statefulSet_affiliation (pod : Pod) :
  (ownerReferences (pod_metadata pod) = None ->
   isStatefulSet pod = None /\ statefulSetName pod = None
   /\ Js.truthyBool (isStatefulSet pod) = false)
  /\ (ownerReferences (pod_metadata pod) = Some [] ->
      isStatefulSet pod = Some false /\ statefulSetName pod = None
      /\ Js.truthyBool (isStatefulSet pod) = false)
  /\ (forall before r after,
        ownerReferences (pod_metadata pod) = Some (before ++ r :: after)%list ->
        ref_kind r = "StatefulSet" ->
        (forall x, In x before \/ In x after -> ref_kind x <> "StatefulSet") ->
        isStatefulSet pod = Some true /\ statefulSetName pod = Some (ref_name r)
        /\ Js.truthyBool (isStatefulSet pod) = true).
Proof.
  unfold statefulSetName, isStatefulSet.
  split; [|split].
  - intros ->. now repeat split.
  - intros ->. now repeat split.
  - intros before r after -> Hr Hothers.
    destruct (first_StatefulSet_ref before after r Hr) as [Hsome Hfind].
    { intros x Hx. apply Hothers. now left. }
    rewrite Hsome. simpl. rewrite Hfind. now repeat split.
Qed.

(** A pod owned by the StatefulSet [cjoc], and a pod owned by nothing. *)
Lemma statefulSet_affiliation_witness :
  let owned :=
    {| pod_metadata :=
         {| pod_name := "cjoc-0";
            ownerReferences := Some [mkOwnerReference "StatefulSet" "cjoc"] |};
       pod_spec := {| nodeName := None; volumes := None |};
       pod_status := {| phase := "Running"; startTime := None;
                        containerStatuses := None; conditions := None |} |} in
  (isStatefulSet owned = Some true /\ statefulSetName owned = Some "cjoc")
  /\ (isStatefulSet (barePod "agent" "Running") = None
      /\ statefulSetName (barePod "agent" "Running") = None).
Proof.
  intro owned. split.
  - destruct (statefulSet_affiliation owned) as (_ & _ & H).
    destruct (H [] (mkOwnerReference "StatefulSet" "cjoc") [] eq_refl eq_refl)
      as (H1 & H2 & _).
    + simpl. tauto.
    + now split.
  - destruct (statefulSet_affiliation (barePod "agent" "Running")) as (H & _).
    destruct (H eq_refl) as (H1 & H2 & _). now split.
Defined.

(** ** Fetchers *)

Section FetcherFacts.

Variable execAsync : string -> Js.Completion ExecOutput.
Variable JSON_parse : forall k : Kind, string -> Js.Completion (Json (Doc k)).
Variable this : JenkinsPodMonitor.

(** [getJenkinsPods], step by step. *)
Lemma getJenkinsPods_steps :
  getJenkinsPods execAsync JSON_parse this =
    let recover (error : Js.Error) : Js.Completion (Json Pod) :=
      if noResourcesFound error then Js.Resolved (JArray [])
      else Js.Rejected error in
    match execAsync (podsCommand this) with
    | Js.Rejected e => recover e
    | Js.Resolved out =>
        match JSON_parse PodKind (stdout out) with
        | Js.Rejected e => recover e
        | Js.Resolved data =>
            match get_items data with
            | Js.Rejected e => recover e
            | Js.Resolved items => Js.Resolved (orEmpty items)
            end
        end
    end.
Proof.
  unfold getJenkinsPods, try_catch, bind, podsCommand, noResourcesFound. cbv zeta.
  destruct (execAsync _) as [out|e]; [|reflexivity].
  destruct (JSON_parse PodKind (stdout out)) as [data|e]; [|reflexivity].
  destruct (get_items data); reflexivity.
Qed.

(** [getStatefulSets], step by step. *)
Lemma getStatefulSets_steps :
  getStatefulSets execAsync JSON_parse this =
    let recover (error : Js.Error) : Js.Completion (Json StatefulSet) :=
      if noResourcesFound error then Js.Resolved (JArray [])
      else Js.Rejected error in
    match execAsync (statefulSetsCommand this) with
    | Js.Rejected e => recover e
    | Js.Resolved out =>
        match JSON_parse StatefulSetKind (stdout out) with
        | Js.Rejected e => recover e
        | Js.Resolved data =>
            match get_items data with
            | Js.Rejected e => recover e
            | Js.Resolved items => Js.Resolved (orEmpty items)
            end
        end
    end.
Proof.
  unfold getStatefulSets, try_catch, bind, statefulSetsCommand, noResourcesFound.
  cbv zeta.
  destruct (execAsync _) as [out|e]; [|reflexivity].
  destruct (JSON_parse StatefulSetKind (stdout out)) as [data|e]; [|reflexivity].
  destruct (get_items data); reflexivity.
Qed.

(** C6, amended.  Each fetcher tells the outcome where nothing matches by
    the text of the error: it returns an empty sequence, and raises nothing,
    when the command or the parser fails with a message that holds
    [No resources found], whatever the cause of the failure, and when the
    list of items is empty.  A failure whose message does not hold the text
    is propagated as it is: a failure of the command (client unreachable,
    authorization refused) and a response that cannot be parsed; a response
    that parses to [null] raises a [TypeError]. *)
Theorem fetchers_empty_or_propagate :
  FetcherContract (execAsync (podsCommand this)) (JSON_parse PodKind)
                  (getJenkinsPods execAsync JSON_parse this)
  /\ FetcherContract (execAsync (statefulSetsCommand this))
                     (JSON_parse StatefulSetKind)
                     (getStatefulSets execAsync JSON_parse this).
Proof.
  split.
  - rewrite getJenkinsPods_steps. cbv zeta. unfold FetcherContract.
    repeat split.
    + intros e -> ->. reflexivity.
    + intros out fields -> -> Hl. unfold get_items. now rewrite Hl.
    + intros e -> ->. reflexivity.
    + intros out e -> -> ->. reflexivity.
    + intros out -> ->. simpl. eexists. split; reflexivity.
    + intros out e -> -> ->. reflexivity.
  - rewrite getStatefulSets_steps. cbv zeta. unfold FetcherContract.
    repeat split.
    + intros e -> ->. reflexivity.
    + intros out fields -> -> Hl. unfold get_items. now rewrite Hl.
    + intros e -> ->. reflexivity.
    + intros out e -> -> ->. reflexivity.
    + intros out -> ->. simpl. eexists. split; reflexivity.
    + intros out e -> -> ->. reflexivity.
Qed.

(** C10, amended.  For a response that parses to a JSON value other than
    [null] and without an [items] field, each fetcher returns an empty
    sequence, as it does when nothing matches; for a response that parses to
    [null], reading [items] raises a [TypeError], which the fetcher
    propagates. *)
Theorem fetchers_without_items :
  (forall out data,
      execAsync (podsCommand this) = Js.Resolved out ->
      JSON_parse PodKind (stdout out) = Js.Resolved data ->
      noItemsField data ->
      (data <> JNull ->
       getJenkinsPods execAsync JSON_parse this = Js.Resolved (JArray []))
      /\ (data = JNull ->
          getJenkinsPods execAsync JSON_parse this =
            Js.Rejected (Js.mkError "TypeError"
                           "Cannot read properties of null (reading 'items')")))
  /\ (forall out data,
        execAsync (statefulSetsCommand this) = Js.Resolved out ->
        JSON_parse StatefulSetKind (stdout out) = Js.Resolved data ->
        noItemsField data ->
        (data <> JNull ->
         getStatefulSets execAsync JSON_parse this = Js.Resolved (JArray []))
        /\ (data = JNull ->
            getStatefulSets execAsync JSON_parse this =
              Js.Rejected (Js.mkError "TypeError"
                             "Cannot read properties of null (reading 'items')"))).
Proof.
  split.
  - intros out data Hexec Hparse Hno.
    rewrite getJenkinsPods_steps, Hexec, Hparse. cbv zeta.
    split; [intro Hnn | intros ->; reflexivity].
    destruct data as [| | | | |fields]; try reflexivity; [congruence|].
    unfold noItemsField in Hno. unfold get_items. now rewrite Hno.
  - intros out data Hexec Hparse Hno.
    rewrite getStatefulSets_steps, Hexec, Hparse. cbv zeta.
    split; [intro Hnn | intros ->; reflexivity].
    destruct data as [| | | | |fields]; try reflexivity; [congruence|].
    unfold noItemsField in Hno. unfold get_items. now rewrite Hno.
Qed.

End FetcherFacts.

(** ** The run where nothing is found *)

Lemma isBlockLine_prefix (p s : string) :
  In p blockPrefixes -> String.prefix p s = true -> isBlockLine (Log s) = true.
Proof.
  intros Hin Hp. unfold isBlockLine. apply List.existsb_exists.
  exists p. now split.
Qed.

Ltac block_line :=
  first
    [ apply (isBlockLine_prefix colors.bright);
      [simpl; tauto | first [reflexivity | apply prefix_append; reflexivity]]
    | apply (isBlockLine_prefix "   ");
      [simpl; tauto | first [reflexivity | apply prefix_append; reflexivity]]
    | apply (isBlockLine_prefix (colors.dim ++ "   "));
      [simpl; tauto | reflexivity]
    | apply (isBlockLine_prefix (colors.blue ++ "╔"));
      [simpl; tauto | reflexivity]
    | apply (isBlockLine_prefix "║");
      [simpl; tauto | first [reflexivity | apply prefix_append; reflexivity]]
    | apply (isBlockLine_prefix "╠"); [simpl; tauto | reflexivity]
    | apply (isBlockLine_prefix "╚"); [simpl; tauto | reflexivity]
    | apply (isBlockLine_prefix (nl ++ colors.bright));
      [simpl; tauto | reflexivity] ].

(** Every line of a pod block starts as a block line. *)
Lemma printPodInfo_lines (Date_parse : string -> option Z) (now : Z) (pod : Pod)
      (line : Out) :
  In line (printPodInfo Date_parse now pod) -> isBlockLine line = true.
Proof.
  unfold printPodInfo. cbv zeta. intro H.
  repeat (apply in_app_or in H; destruct H as [H|H]).
  - destruct H as [<-|[]]. block_line.
  - destruct (Js.truthyString (statefulSetName pod)); [|destruct H].
    destruct H as [<-|[]]. block_line.
  - repeat (destruct H as [<-|H]; [block_line|]). destruct H.
  - destruct (Js.truthyBool (isStatefulSet pod)); [|destruct H].
    destruct (volumes (pod_spec pod)) as [vols|]; [|destruct H].
    destruct (0 <? _); [|destruct H].
    destruct H as [<-|H]; [block_line|].
    apply in_map_iff in H. destruct H as (pvc & <- & _). block_line.
  - destruct (0 <? _); [|destruct H].
    destruct H as [<-|H]; [block_line|].
    apply in_map_iff in H. destruct H as (c & <- & _). block_line.
  - destruct H as [<-|[]]. block_line.
Qed.

(** Every line of the summary block starts as a block line. *)
Lemma printSummary_lines (pods : list Pod) (statefulSets : list StatefulSet)
      (line : Out) :
  In line (printSummary pods statefulSets) -> isBlockLine line = true.
Proof.
  unfold printSummary. cbv zeta. intro H.
  repeat (apply in_app_or in H; destruct H as [H|H]).
  - repeat (destruct H as [<-|H]; [block_line|]). destruct H.
  - destruct (0 <? _); [|destruct H].
    destruct H as [<-|H]; [block_line|].
    apply in_map_iff in H. destruct H as (sts & <- & _). block_line.
  - destruct H as [<-|[]]. block_line.
Qed.

Lemma nothingFoundReport_lines (localeNow : string) (this : JenkinsPodMonitor)
      (line : Out) :
  In line (nothingFoundReport localeNow this) -> isBlockLine line = false.
Proof.
  unfold nothingFoundReport, printHeader, noResources. intro H.
  repeat (apply in_app_or in H; destruct H as [H|H]);
    repeat (destruct H as [<-|H]; [reflexivity|]); destruct H.
Qed.

Section RunFacts.

Variable env : string -> option string.
Variable execAsync : string -> Js.Completion ExecOutput.
Variable JSON_parse : forall k : Kind, string -> Js.Completion (Json (Doc k)).
Variable Date_parse : string -> option Z.
Variable now : Z.
Variable localeNow : string.
Variable settlesFirst : Kind.

(** [run] when [kubectl] answers and both fetchers return an empty list. *)
Lemma run_nothing_found (this : JenkinsPodMonitor) (version : ExecOutput) :
  execAsync "kubectl version --client" = Js.Resolved version ->
  getJenkinsPods execAsync JSON_parse this = Js.Resolved (JArray []) ->
  getStatefulSets execAsync JSON_parse this = Js.Resolved (JArray []) ->
  run execAsync JSON_parse Date_parse now localeNow settlesFirst this
  = Some (nothingFoundReport localeNow this, Returned).
Proof.
  intros Hv Hp Hs. unfold run, checkKubectl, Promise_all.
  rewrite Hv, Hp, Hs. reflexivity.
Qed.

(** C7. When [kubectl] is there and both the list of pods and the list of
    StatefulSets come back empty, [run] writes the header, the line of the
    search and the three lines saying that no resources are found in the
    namespace with the label, and returns without leaving the process; none
    of these lines is a line of a pod block or of a summary block; and the
    script, run once, ends with exit status 0. *)
Theorem run_no_resources_found (argv : list string) (version : ExecOutput) :
  let this := newMonitor env in
  execAsync "kubectl version --client" = Js.Resolved version ->
  getJenkinsPods execAsync JSON_parse this = Js.Resolved (JArray []) ->
  getStatefulSets execAsync JSON_parse this = Js.Resolved (JArray []) ->
  let report :=
    [Log (nl ++ colors.blue ++ headerBox ++ colors.reset ++ nl);
     Log (colors.dim ++ "Namespace: " ++ colors.cyan ++ namespace this ++ colors.dim
          ++ " | Label Selector: " ++ colors.cyan ++ labelSelector this
          ++ colors.reset);
     Log (colors.dim ++ "Timestamp: " ++ colors.white ++ localeNow ++ colors.reset
          ++ nl);
     Log (colors.dim ++ "🔍 Searching for CloudBees Core pods and StatefulSets..."
          ++ colors.reset ++ nl);
     Log (colors.yellow ++ "⚠️  No CloudBees Core resources found in namespace '"
          ++ namespace this ++ "' with label '" ++ labelSelector this ++ "'"
          ++ colors.reset);
     Log (colors.dim
          ++ "Try adjusting the JENKINS_NAMESPACE or JENKINS_LABEL environment variables"
          ++ colors.reset);
     Log (colors.dim
          ++ "Common CloudBees Core labels: app.kubernetes.io/name=cloudbees-core, app=cjoc, app=jenkins"
          ++ colors.reset)] in
  run execAsync JSON_parse Date_parse now localeNow settlesFirst this
  = Some (report, Returned)
  /\ (forall pod line,
        In line (printPodInfo Date_parse now pod) -> ~ In line report)
  /\ (forall pods statefulSets line,
        In line (printSummary pods statefulSets) -> ~ In line report)
  /\ (argvIncludes argv "--help" = false -> argvIncludes argv "-h" = false ->
      argvIncludes argv "--watch" = false -> argvIncludes argv "-w" = false ->
      main env execAsync JSON_parse Date_parse now localeNow settlesFirst argv
      = Some (report, ExitStatus 0)).
Proof.
  intros this Hv Hp Hs report.
  assert (Hreport : report = nothingFoundReport localeNow this) by reflexivity.
  rewrite Hreport. clear Hreport report.
  pose proof (run_nothing_found this version Hv Hp Hs) as Hrun.
  split; [exact Hrun|]. split; [|split].
  - intros pod line Hin Hout.
    apply printPodInfo_lines in Hin. apply nothingFoundReport_lines in Hout.
    congruence.
  - intros pods statefulSets line Hin Hout.
    apply printSummary_lines in Hin. apply nothingFoundReport_lines in Hout.
    congruence.
  - intros H1 H2 H3 H4. unfold main. rewrite H1, H2, H3, H4. simpl.
    fold this. now rewrite Hrun.
Qed.

(** [run] goes on to the end whenever each fetcher raises or returns an
    array. *)
Lemma run_defined (this : JenkinsPodMonitor) :
  (forall v, getJenkinsPods execAsync JSON_parse this = Js.Resolved v ->
             exists pods, v = JArray pods) ->
  (forall v, getStatefulSets execAsync JSON_parse this = Js.Resolved v ->
             exists statefulSets, v = JArray statefulSets) ->
  exists result,
    run execAsync JSON_parse Date_parse now localeNow settlesFirst this = Some result.
Proof.
  intros Hp Hs. unfold run, checkKubectl, Promise_all.
  destruct (execAsync "kubectl version --client"); [|eexists; reflexivity].
  destruct (getJenkinsPods execAsync JSON_parse this) as [v|e];
    destruct (getStatefulSets execAsync JSON_parse this) as [w|e'].
  - destruct (Hp v eq_refl) as [pods ->]. destruct (Hs w eq_refl) as [sts ->].
    cbn [negb]. cbv iota.
    destruct ((Js.length pods =? 0) && (Js.length sts =? 0)); eexists; reflexivity.
  - eexists; reflexivity.
  - eexists; reflexivity.
  - destruct settlesFirst; eexists; reflexivity.
Qed.

(** A list of items comes back as it is. *)
Lemma getJenkinsPods_items (this : JenkinsPodMonitor) (out : ExecOutput)
      (fields : list (string * Json Pod)) (pods : list Pod) :
  execAsync (podsCommand this) = Js.Resolved out ->
  JSON_parse PodKind (stdout out) = Js.Resolved (JObject fields) ->
  lookup "items" fields = Some (JArray pods) ->
  getJenkinsPods execAsync JSON_parse this = Js.Resolved (JArray pods).
Proof.
  intros He Hj Hl. rewrite getJenkinsPods_steps, He. cbv beta iota zeta.
  rewrite Hj. unfold get_items. cbn [Doc]. now rewrite Hl.
Qed.

End RunFacts.

(** ** The fetchers and a run on the example platform *)

(** The fetchers on three answers: a failure that says nothing is found, a
    refused authorization and a text that is not JSON. *)
Lemma fetchers_empty_or_propagate_witness :
  let notFound :=
    Js.mkError "Error"
      ("Command failed: " ++ podsCommand cjocMonitor ++ nl
       ++ "No resources found in cloudbees-core namespace." ++ nl) in
  let forbidden :=
    Js.mkError "Error"
      ("Command failed: " ++ podsCommand cjocMonitor ++ nl
       ++ "Error from server (Forbidden): pods is forbidden" ++ nl) in
  getJenkinsPods (execExample (Js.Rejected notFound)) parseExample cjocMonitor
  = Js.Resolved (JArray [])
  /\ getJenkinsPods (execExample (Js.Rejected forbidden)) parseExample cjocMonitor
     = Js.Rejected forbidden
  /\ getStatefulSets
       (execExample (Js.Resolved (mkExecOutput "<html>" EmptyString)))
       parseExample cjocMonitor
     = Js.Rejected (Js.mkError "SyntaxError" "Unexpected end of JSON input")
  /\ getStatefulSets
       (execExample (Js.Resolved (mkExecOutput emptyList EmptyString)))
       parseExample cjocMonitor
     = Js.Resolved (JArray []).
Proof.
  intros notFound forbidden.
  split; [|split; [|split]].
  - destruct (fetchers_empty_or_propagate (execExample (Js.Rejected notFound))
                parseExample cjocMonitor) as [(H & _) _].
    apply (H notFound); reflexivity.
  - destruct (fetchers_empty_or_propagate (execExample (Js.Rejected forbidden))
                parseExample cjocMonitor) as [(_ & _ & H & _) _].
    apply (H forbidden); reflexivity.
  - destruct (fetchers_empty_or_propagate
                (execExample (Js.Resolved (mkExecOutput "<html>" EmptyString)))
                parseExample cjocMonitor) as [_ (_ & _ & _ & H & _)].
    apply (H (mkExecOutput "<html>" EmptyString)); reflexivity.
  - destruct (fetchers_empty_or_propagate
                (execExample (Js.Resolved (mkExecOutput emptyList EmptyString)))
                parseExample cjocMonitor) as [_ (_ & H & _)].
    apply (H (mkExecOutput emptyList EmptyString) [("items", JArray [])]);
      reflexivity.
Defined.

(** C6, as it is stated, fails: a failure that is not the empty outcome is
    swallowed when its message holds the text.  A refused query of pods whose
    label selector holds the text, and so does the command in the message of
    the error, gives an empty sequence; so does a response that is not JSON
    when the error of the parser quotes it. *)
Lemma fetchers_swallow_other_failures :
  let refused := refusedPods labelledNotFound in
  let notJson := Js.Resolved (mkExecOutput "No resources found" EmptyString) in
  labelSelector labelledNotFound = "app=No resources found"
  /\ getJenkinsPods (execExample (Js.Rejected refused)) parseExample labelledNotFound
     = Js.Resolved (JArray [])
  /\ getJenkinsPods (execExample (Js.Rejected refused)) parseExample labelledNotFound
     <> Js.Rejected refused
  /\ getStatefulSets (execExample notJson) parseQuoting cjocMonitor
     = Js.Resolved (JArray [])
  /\ getStatefulSets (execExample notJson) parseQuoting cjocMonitor
     <> Js.Rejected quotingSyntaxError.
Proof.
  intros refused notJson.
  repeat split; try reflexivity; discriminate.
Qed.

(** C10, as it is stated, fails: the text [null] parses as JSON and has no
    [items] field, and both fetchers raise a [TypeError] on it. *)
Lemma fetchers_null_response_raises :
  let exec := execExample (Js.Resolved (mkExecOutput "null" EmptyString)) in
  let typeError :=
    Js.mkError "TypeError" "Cannot read properties of null (reading 'items')" in
  parseExample PodKind "null" = Js.Resolved JNull
  /\ noItemsField (@JNull Pod)
  /\ getJenkinsPods exec parseExample cjocMonitor = Js.Rejected typeError
  /\ getJenkinsPods exec parseExample cjocMonitor <> Js.Resolved (JArray [])
  /\ getStatefulSets exec parseExample cjocMonitor = Js.Rejected typeError
  /\ getStatefulSets exec parseExample cjocMonitor <> Js.Resolved (JArray []).
Proof.
  intros exec typeError.
  repeat split; try reflexivity; discriminate.
Qed.

(** An object without fields gives an empty sequence; [null] raises. *)
Lemma fetchers_without_items_witness :
  getJenkinsPods (execExample (Js.Resolved (mkExecOutput "{}" EmptyString)))
                 parseExample cjocMonitor
  = Js.Resolved (JArray [])
  /\ getStatefulSets (execExample (Js.Resolved (mkExecOutput "null" EmptyString)))
                     parseExample cjocMonitor
     = Js.Rejected (Js.mkError "TypeError"
                      "Cannot read properties of null (reading 'items')").
Proof.
  split.
  - destruct (fetchers_without_items
                (execExample (Js.Resolved (mkExecOutput "{}" EmptyString)))
                parseExample cjocMonitor) as [H _].
    destruct (H (mkExecOutput "{}" EmptyString) (JObject []) eq_refl eq_refl eq_refl)
      as [H0 _].
    apply H0. discriminate.
  - destruct (fetchers_without_items
                (execExample (Js.Resolved (mkExecOutput "null" EmptyString)))
                parseExample cjocMonitor) as [_ H].
    destruct (H (mkExecOutput "null" EmptyString) JNull eq_refl eq_refl I)
      as [_ H0].
    exact (H0 eq_refl).
Defined.

(** A single run against a cluster without matching resources, with the
    default namespace and label: the seven lines, and exit status 0. *)
Lemma run_no_resources_found_witness :
  let env := fun _ : string => @None string in
  let exec := execExample (Js.Resolved (mkExecOutput emptyList EmptyString)) in
  let localeNow := "11/14/2023, 10:13:20 PM" in
  main env exec parseExample (fun _ => None) 1700000000000 localeNow PodKind
       ["node"; "dashboard.js"]
  = Some ([Log (nl ++ colors.blue ++ headerBox ++ colors.reset ++ nl);
           Log (colors.dim ++ "Namespace: " ++ colors.cyan ++ "cloudbees-core"
                ++ colors.dim ++ " | Label Selector: " ++ colors.cyan
                ++ "app.kubernetes.io/name=cloudbees-core" ++ colors.reset);
           Log (colors.dim ++ "Timestamp: " ++ colors.white
                ++ "11/14/2023, 10:13:20 PM" ++ colors.reset ++ nl);
           Log (colors.dim
                ++ "🔍 Searching for CloudBees Core pods and StatefulSets..."
                ++ colors.reset ++ nl);
           Log (colors.yellow
                ++ "⚠️  No CloudBees Core resources found in namespace '"
                ++ "cloudbees-core" ++ "' with label '"
                ++ "app.kubernetes.io/name=cloudbees-core" ++ "'" ++ colors.reset);
           Log (colors.dim
                ++ "Try adjusting the JENKINS_NAMESPACE or JENKINS_LABEL environment variables"
                ++ colors.reset);
           Log (colors.dim
                ++ "Common CloudBees Core labels: app.kubernetes.io/name=cloudbees-core, app=cjoc, app=jenkins"
                ++ colors.reset)],
          ExitStatus 0).
Proof.
  intros env exec localeNow.
  destruct (run_no_resources_found env exec parseExample (fun _ => None)
              1700000000000 localeNow PodKind ["node"; "dashboard.js"]
              (mkExecOutput "Client Version: v1.28.2" EmptyString)
              eq_refl eq_refl eq_refl) as (_ & _ & _ & H).
  rewrite H by reflexivity. reflexivity.
Defined.

(** ** The examples of the specification *)

(** A running pod started 65 minutes ago, without restarts: its block shows
    [1h 5m] and [No restarts], names its StatefulSet, its claim and the
    short image of each container, and the pod counts as running. *)
Example running_pod_block :
  printPodInfo exampleDate (exampleStart + 65 * 60000) examplePod =
    [Log (colors.bright ++ "📊 StatefulSet Pod: " ++ colors.cyan ++ "cjoc-0"
          ++ colors.reset);
     Log ("   🏗️  StatefulSet: " ++ colors.magenta ++ "cjoc" ++ colors.reset);
     Log ("   🟢 Status: " ++ colors.green ++ "Running" ++ colors.reset);
     Log ("   🖥️  Node: " ++ colors.white ++ "node-1" ++ colors.reset);
     Log ("   ⏱️  Uptime: " ++ colors.green ++ "1h 5m" ++ colors.reset);
     Log ("   🔄 Restarts: " ++ colors.green ++ "No restarts" ++ colors.reset);
     Log ("   🏥 Health: " ++ colors.green ++ "Ready: ✅" ++ colors.reset);
     Log "   💾 Persistent Volumes:";
     Log ("      • " ++ colors.yellow ++ "jenkins-home-cjoc-0" ++ colors.reset);
     Log "   📋 Containers:";
     Log ("      • " ++ colors.cyan ++ "sidecar" ++ colors.reset
          ++ ": 🔴 Not Ready (" ++ colors.dim ++ "envoy:1" ++ colors.reset ++ ")");
     Log ("      • " ++ colors.cyan ++ "jenkins" ++ colors.reset
          ++ ": 🟢 Ready (" ++ colors.dim ++ "cloudbees-core-oc:2.4" ++ colors.reset
          ++ ")");
     Log (colors.dim ++ podRule ++ colors.reset ++ nl)]
  /\ runningPods [examplePod] = 1.
Proof. split; reflexivity. Qed.

(** A StatefulSet with all its replicas ready is green, with none ready red,
    with some ready yellow. *)
Example statefulSet_status_colors :
  let line (ready : Z) (color text : string) :=
    In (Log ("   • " ++ colors.cyan ++ "cjoc" ++ colors.reset ++ ": " ++ color
             ++ text ++ " ready" ++ colors.reset ++ " (0 current)"))
       (printSummary [] [mkStatefulSet "cjoc" (Some 3) (Some ready) None]) in
  line 3 colors.green "3/3" /\ line 0 colors.red "0/3" /\ line 1 colors.yellow "1/3".
Proof.
  cbv zeta. repeat split; do 7 right; left; reflexivity.
Qed.

(** The main container is the one named after Jenkins, else the first. *)
Example mainContainer_choice :
  option_map cs_name
    (mainContainer [mkContainerStatus "sidecar" "envoy:1" false 9 None;
                    mkContainerStatus "jenkins" "jenkins:lts" true 0 None])
  = Some "jenkins"
  /\ option_map cs_name
       (mainContainer [mkContainerStatus "sidecar" "envoy:1" false 9 None;
                       mkContainerStatus "agent" "agent:1" true 0 None])
     = Some "sidecar"
  /\ mainContainer [] = None.
Proof. repeat split; reflexivity. Qed.

(** A single run on a cluster with one pod and one StatefulSet: the header,
    the line of the search, the block of the pod and the summary, and exit
    status 0. *)
Example main_single_run :
  let env := fun _ : string => @None string in
  let exec := execExample (Js.Resolved (mkExecOutput "{...}" EmptyString)) in
  let sts := mkStatefulSet "cjoc" (Some 1) (Some 1) (Some 1) in
  let now := exampleStart + 65 * 60000 in
  let localeNow := "11/14/2023, 11:18:20 PM" in
  main env exec (parseCluster [examplePod] [sts]) exampleDate now localeNow PodKind
       ["node"; "dashboard.js"]
  = Some ((printHeader localeNow (newMonitor env)
           ++ [Log (colors.dim
                    ++ "🔍 Searching for CloudBees Core pods and StatefulSets..."
                    ++ colors.reset ++ nl)]
           ++ printPodInfo exampleDate now examplePod
           ++ printSummary [examplePod] [sts])%list,
          ExitStatus 0).
Proof. reflexivity. Qed.

(** Without [kubectl] the script writes the header and one line on standard
    error, and leaves with exit status 1; with [--help] it writes the usage
    and leaves with exit status 0. *)
Example main_without_kubectl :
  let env := fun _ : string => @None string in
  let exec := fun _ : string =>
    @Js.Rejected ExecOutput
      (Js.mkError "Error" "Command failed: kubectl version --client") in
  main env exec parseExample exampleDate exampleStart "now" PodKind
       ["node"; "dashboard.js"]
  = Some ((printHeader "now" (newMonitor env)
           ++ [Err (colors.red ++ "❌ kubectl is not installed or not in PATH"
                    ++ colors.reset)])%list,
          ExitStatus 1)
  /\ main env exec parseExample exampleDate exampleStart "now" PodKind
          ["node"; "dashboard.js"; "--help"]
     = Some ([Log usage], ExitStatus 0).
Proof. split; reflexivity. Qed.

(** A refused query in a single run: the error line and exit status 1. *)
Example main_query_refused :
  let env := fun _ : string => @None string in
  let forbidden :=
    Js.mkError "Error" "Command failed: kubectl get pods: Forbidden" in
  let exec := execExample (Js.Rejected forbidden) in
  main env exec parseExample exampleDate exampleStart "now" StatefulSetKind
       ["node"; "dashboard.js"]
  = Some ((printHeader "now" (newMonitor env)
           ++ [Log (colors.dim
                    ++ "🔍 Searching for CloudBees Core pods and StatefulSets..."
                    ++ colors.reset ++ nl);
               Err (colors.red ++ "❌ Error: "
                    ++ "Command failed: kubectl get pods: Forbidden"
                    ++ colors.reset)])%list,
          ExitStatus 1).
Proof. reflexivity. Qed.

(** * Further properties of the script *)

(** ** Uptime: granularity and invalid dates *)

(** The whole minutes of a non-negative elapsed time, split as the script
    splits them. *)
Lemma elapsed_minutes_split (diffMs : Z) :
  0 <= diffMs ->
  diffMs / 86400000 = diffMs / 60000 / 1440
  /\ (diffMs / 3600000) mod 24 = (diffMs / 60000 / 60) mod 24
  /\ (diffMs / 86400000 * 24 + (diffMs / 3600000) mod 24) * 60
     + (diffMs / 60000) mod 60 = diffMs / 60000.
Proof.
  intro H.
  assert (H1 : diffMs / 86400000 = diffMs / 60000 / 1440)
    by (rewrite Z.div_div by lia; reflexivity).
  assert (H2 : diffMs / 3600000 = diffMs / 60000 / 60)
    by (rewrite Z.div_div by lia; reflexivity).
  split; [exact H1|]. split; [now rewrite H2|].
  rewrite H1, H2.
  set (q := diffMs / 60000).
  assert (H3 : q / 1440 = q / 60 / 24) by (rewrite Z.div_div by lia; reflexivity).
  rewrite H3.
  pose proof (Z.div_mod (q / 60) 24 ltac:(lia)).
  pose proof (Z.div_mod q 60 ltac:(lia)).
  lia.
Qed.

(** X1. For a valid start date not after [now], the days, hours and minutes
    that [formatUptime] renders add up to the whole minutes of the elapsed
    time: nothing is lost but the seconds. *)
Theorem formatUptime_fields_add_up
        (Date_parse : string -> option Z) (now start : Z) (startTime : string) :
  Date_parse startTime = Some start ->
  start <= now ->
  exists d h m : Z,
    0 <= d /\ 0 <= h < 24 /\ 0 <= m < 60
    /\ (d * 24 + h) * 60 + m = (now - start) / 60000
    /\ formatUptime Date_parse now startTime =
         if 0 <? d then
           Js.intToString d ++ "d " ++ Js.intToString h ++ "h "
           ++ Js.intToString m ++ "m"
         else if 0 <? h then Js.intToString h ++ "h " ++ Js.intToString m ++ "m"
         else Js.intToString m ++ "m".
Proof.
  intros Hp Hle.
  destruct (uptime_fields_nonneg (now - start) ltac:(lia)) as (Hd & Hh & Hm).
  destruct (elapsed_minutes_split (now - start) ltac:(lia)) as (_ & _ & Hsum).
  exists ((now - start) / 86400000), (((now - start) / 3600000) mod 24),
         (((now - start) / 60000) mod 60).
  split; [exact Hd|].
  split; [apply Z.mod_pos_bound; lia|].
  split; [apply Z.mod_pos_bound; lia|].
  split; [exact Hsum|].
  rewrite (formatUptime_valid Date_parse now start startTime Hp). cbv zeta.
  now rewrite Hh, Hm.
Qed.

Lemma formatUptime_fields_add_up_witness :
  exists d h m : Z,
    0 <= d /\ 0 <= h < 24 /\ 0 <= m < 60
    /\ (d * 24 + h) * 60 + m = (exampleStart + 90061001 - exampleStart) / 60000
    /\ formatUptime exampleDate (exampleStart + 90061001) "2023-11-14T22:13:20Z" =
         if 0 <? d then
           Js.intToString d ++ "d " ++ Js.intToString h ++ "h "
           ++ Js.intToString m ++ "m"
         else if 0 <? h then Js.intToString h ++ "h " ++ Js.intToString m ++ "m"
         else Js.intToString m ++ "m".
Proof.
  exact (formatUptime_fields_add_up exampleDate (exampleStart + 90061001)
           exampleStart "2023-11-14T22:13:20Z" eq_refl
           ltac:(vm_compute; discriminate)).
Defined.

(** X2. [formatUptime] has a granularity of one minute: two valid start
    dates, none after [now], whose elapsed times have the same whole minutes
    are rendered alike. *)
Theorem formatUptime_minute_granularity
        (Date_parse : string -> option Z) (now start1 start2 : Z)
        (startTime1 startTime2 : string) :
  Date_parse startTime1 = Some start1 ->
  Date_parse startTime2 = Some start2 ->
  start1 <= now -> start2 <= now ->
  (now - start1) / 60000 = (now - start2) / 60000 ->
  formatUptime Date_parse now startTime1 = formatUptime Date_parse now startTime2.
Proof.
  intros Hp1 Hp2 Hle1 Hle2 Hmin.
  rewrite (formatUptime_valid Date_parse now start1 startTime1 Hp1).
  rewrite (formatUptime_valid Date_parse now start2 startTime2 Hp2).
  cbv zeta.
  destruct (uptime_fields_nonneg (now - start1) ltac:(lia)) as (_ & Hh1 & Hm1).
  destruct (uptime_fields_nonneg (now - start2) ltac:(lia)) as (_ & Hh2 & Hm2).
  destruct (elapsed_minutes_split (now - start1) ltac:(lia)) as (Hd1 & Hh1' & _).
  destruct (elapsed_minutes_split (now - start2) ltac:(lia)) as (Hd2 & Hh2' & _).
  rewrite Hh1, Hm1, Hh2, Hm2, Hd1, Hd2, Hh1', Hh2', Hmin. reflexivity.
Qed.

(** Starts 59 seconds apart within the same elapsed minute read alike. *)
Lemma formatUptime_minute_granularity_witness :
  let Date_parse := fun s : string =>
    if String.eqb s "1970-01-01T00:00:00Z" then Some 0 else Some 59000 in
  formatUptime Date_parse 3959000 "1970-01-01T00:00:00Z"
  = formatUptime Date_parse 3959000 "1970-01-01T00:00:59Z".
Proof.
  intro Date_parse.
  exact (formatUptime_minute_granularity Date_parse 3959000 0 59000
           "1970-01-01T00:00:00Z" "1970-01-01T00:00:59Z" eq_refl eq_refl
           ltac:(vm_compute; discriminate) ltac:(vm_compute; discriminate) eq_refl).
Defined.

(** X3. A start date that [Date] cannot read is rendered [NaNm], whatever
    the clock.  In a restart summary with a positive count, such a timestamp
    reads [(last: NaNm ago)] when it is not the empty string; the empty
    string is not given to [formatUptime] and reads [(last: unknown ago)]. *)
Theorem formatUptime_invalid_date
        (Date_parse : string -> option Z) (now : Z) (startTime : string) :
  Date_parse startTime = None ->
  formatUptime Date_parse now startTime = "NaNm"
  /\ (forall restartCount, 0 < restartCount -> startTime <> EmptyString ->
        exists color,
          formatRestartInfo Date_parse now restartCount (Some startTime) =
            color ++ Js.intToString restartCount ++ " restarts" ++ colors.reset
            ++ " " ++ colors.dim ++ "(last: NaNm ago)" ++ colors.reset)
  /\ (forall restartCount, 0 < restartCount -> startTime = EmptyString ->
        exists color,
          formatRestartInfo Date_parse now restartCount (Some startTime) =
            color ++ Js.intToString restartCount ++ " restarts" ++ colors.reset
            ++ " " ++ colors.dim ++ "(last: unknown ago)" ++ colors.reset).
Proof.
  intro Hp.
  assert (Hnan : formatUptime Date_parse now startTime = "NaNm")
    by (unfold formatUptime, Date_new; now rewrite Hp).
  split; [exact Hnan|]. split.
  - intros restartCount Hpos Hne. unfold formatRestartInfo.
    replace (restartCount =? 0) with false by (symmetry; apply Z.eqb_neq; lia).
    assert (Ht : Js.truthy startTime = true)
      by (destruct startTime; [congruence | reflexivity]).
    rewrite Ht.
    rewrite Hnan. eexists. reflexivity.
  - intros restartCount Hpos ->. unfold formatRestartInfo.
    replace (restartCount =? 0) with false by (symmetry; apply Z.eqb_neq; lia).
    eexists. reflexivity.
Qed.

Lemma formatUptime_invalid_date_witness :
  formatUptime (fun _ => None) exampleStart "yesterday" = "NaNm"
  /\ (exists color,
        formatRestartInfo (fun _ => None) exampleStart 3 (Some "yesterday") =
          color ++ "3 restarts" ++ colors.reset ++ " " ++ colors.dim
          ++ "(last: NaNm ago)" ++ colors.reset)
  /\ (exists color,
        formatRestartInfo (fun _ => None) exampleStart 3 (Some EmptyString) =
          color ++ "3 restarts" ++ colors.reset ++ " " ++ colors.dim
          ++ "(last: unknown ago)" ++ colors.reset).
Proof.
  destruct (formatUptime_invalid_date (fun _ => None) exampleStart "yesterday"
              eq_refl) as (Hnan & Hrestarts & _).
  destruct (formatUptime_invalid_date (fun _ => None) exampleStart EmptyString
              eq_refl) as (_ & _ & Hempty).
  split; [exact Hnan|]. split.
  - exact (Hrestarts 3 eq_refl ltac:(discriminate)).
  - exact (Hempty 3 eq_refl eq_refl).
Defined.

(** ** Health summary: what it depends on *)

(** X4. On sequences that are not empty, the health summary depends only on
    the first Ready, the first PodScheduled and the first Initialized
    condition: later conditions of these types, conditions of other types
    and the order of the types do not matter. *)
Theorem formatHealthStatus_first_conditions_only (conditions1 conditions2 : list Condition) :
  conditions1 <> [] -> conditions2 <> [] ->
  firstOfType "Ready" conditions1 = firstOfType "Ready" conditions2 ->
  firstOfType "PodScheduled" conditions1 = firstOfType "PodScheduled" conditions2 ->
  firstOfType "Initialized" conditions1 = firstOfType "Initialized" conditions2 ->
  formatHealthStatus (Some conditions1) = formatHealthStatus (Some conditions2).
Proof.
  intros Hne1 Hne2 Hr Hs Hi.
  rewrite (formatHealthStatus_conditions conditions1 Hne1).
  rewrite (formatHealthStatus_conditions conditions2 Hne2).
  rewrite (healthFragments_parts conditions1), (healthFragments_parts conditions2).
  now rewrite Hr, Hs, Hi.
Qed.

(** The conditions in the order of the cluster and in another order, with a
    condition of another type and a second Ready condition added. *)
Lemma formatHealthStatus_first_conditions_only_witness :
  formatHealthStatus
    (Some [mkCondition "Initialized" "True"; mkCondition "Ready" "False";
           mkCondition "PodScheduled" "True"])
  = formatHealthStatus
      (Some [mkCondition "ContainersReady" "False"; mkCondition "Ready" "False";
             mkCondition "PodScheduled" "True"; mkCondition "Ready" "True";
             mkCondition "Initialized" "True"]).
Proof.
  exact (formatHealthStatus_first_conditions_only
           [mkCondition "Initialized" "True"; mkCondition "Ready" "False";
            mkCondition "PodScheduled" "True"]
           [mkCondition "ContainersReady" "False"; mkCondition "Ready" "False";
            mkCondition "PodScheduled" "True"; mkCondition "Ready" "True";
            mkCondition "Initialized" "True"]
           ltac:(discriminate) ltac:(discriminate) eq_refl eq_refl eq_refl).
Defined.

(** ** The main container *)

Lemma find_none_all {A : Type} (p : A -> bool) (l : list A) :
  Js.find p l = None -> forall x, In x l -> p x = false.
Proof. intros H x Hx. exact (List.find_none p l H x Hx). Qed.

Lemma find_first {A : Type} (p : A -> bool) (l : list A) (c : A) :
  Js.find p l = Some c ->
  exists before after,
    l = (before ++ c :: after)%list /\ p c = true
    /\ (forall x, In x before -> p x = false).
Proof.
  unfold Js.find. induction l as [|a l IH]; [discriminate|].
  simpl. destruct (p a) eqn:Ha.
  - intros [= <-]. exists [], l. now repeat split.
  - intro H. destruct (IH H) as (before & after & -> & Hc & Hb).
    exists (a :: before), after. repeat split; [assumption|].
    intros x [<-|Hx]; [assumption | now apply Hb].
Qed.

(** X5. The container whose restarts a pod block reports is the first one
    whose name holds [jenkins] or [cloudbees]; when no name does, it is the
    first container; and there is none exactly when the pod has no container
    status. *)
Theorem mainContainer_selection (containers : list ContainerStatus) :
  (mainContainer containers = None <-> containers = [])
  /\ (forall c, mainContainer containers = Some c -> namedAfterProduct c = true ->
        exists before after,
          containers = (before ++ c :: after)%list
          /\ (forall x, In x before -> namedAfterProduct x = false))
  /\ (forall c, mainContainer containers = Some c -> namedAfterProduct c = false ->
        List.hd_error containers = Some c
        /\ (forall x, In x containers -> namedAfterProduct x = false)).
Proof.
  unfold mainContainer. fold namedAfterProduct.
  change (fun c : ContainerStatus =>
            Js.includes (cs_name c) "jenkins" || Js.includes (cs_name c) "cloudbees")
    with namedAfterProduct.
  destruct (Js.find namedAfterProduct containers) as [m|] eqn:Hf.
  - destruct (find_first _ _ _ Hf) as (before & after & Hl & Hm & Hb).
    split; [|split].
    + split; [discriminate|]. intros ->. now destruct before.
    + intros c [= <-] _. now exists before, after.
    + intros c [= <-] Hc. congruence.
  - split; [|split].
    + destruct containers; [now split | split; discriminate].
    + intros c Hc Hn. destruct containers as [|a l]; [discriminate|].
      injection Hc as ->.
      rewrite (find_none_all _ _ Hf c) in Hn; [discriminate | now left].
    + intros c Hc _. split; [exact Hc|]. apply find_none_all. exact Hf.
Qed.

Lemma mainContainer_selection_witness :
  exists before after,
    [mkContainerStatus "sidecar" "envoy:1" false 9 None;
     mkContainerStatus "cloudbees-oc" "oc:2" true 1 None;
     mkContainerStatus "jenkins" "jenkins:lts" true 0 None]
    = (before ++ mkContainerStatus "cloudbees-oc" "oc:2" true 1 None :: after)%list
    /\ (forall x, In x before -> namedAfterProduct x = false).
Proof.
  exact (proj1 (proj2 (mainContainer_selection
           [mkContainerStatus "sidecar" "envoy:1" false 9 None;
            mkContainerStatus "cloudbees-oc" "oc:2" true 1 None;
            mkContainerStatus "jenkins" "jenkins:lts" true 0 None]))
           (mkContainerStatus "cloudbees-oc" "oc:2" true 1 None) eq_refl eq_refl).
Defined.

(** ** The block of a pod *)

(** The block of a pod, part by part. *)
Lemma printPodInfo_parts (Date_parse : string -> option Z) (now : Z) (pod : Pod) :
  printPodInfo Date_parse now pod =
    ([Log (colors.bright
           ++ (if Js.truthyBool (isStatefulSet pod) then "📊" else "📦") ++ " "
           ++ (if Js.truthyBool (isStatefulSet pod) then "StatefulSet Pod" else "Pod")
           ++ ": " ++ colors.cyan ++ pod_name (pod_metadata pod) ++ colors.reset)]
     ++ (if Js.truthyString (statefulSetName pod) then
           [Log ("   🏗️  StatefulSet: " ++ colors.magenta
                 ++ Js.show (statefulSetName pod) ++ colors.reset)]
         else [])
     ++ [Log ("   " ++ match statusIcons (phase (pod_status pod)) with
                       | Some icon => icon
                       | None => "❓"
                       end
              ++ " Status: " ++ getStatusColor (phase (pod_status pod))
              ++ phase (pod_status pod) ++ colors.reset);
         nodeLine (Js.orString (nodeName (pod_spec pod)) "Unscheduled");
         uptimeLine (match startTime (pod_status pod) with
                     | Some t => if Js.truthy t then formatUptime Date_parse now t
                                 else "N/A"
                     | None => "N/A"
                     end);
         restartsLine
           (formatRestartInfo Date_parse now
              (match mainContainer (containersOf pod) with
               | Some c => cs_restartCount c
               | None => 0
               end)
              (lastRestartTime (mainContainer (containersOf pod))));
         Log ("   🏥 Health: " ++ formatHealthStatus (conditions (pod_status pod)))]
     ++ (if Js.truthyBool (isStatefulSet pod) then
           match volumes (pod_spec pod) with
           | Some vols =>
               let pvcs :=
                 Js.filter (fun v => match persistentVolumeClaim v with
                                     | Some _ => true
                                     | None => false
                                     end) vols in
               if 0 <? Js.length pvcs then
                 volumesHeading
                 :: List.map (fun pvc =>
                      claimLine match persistentVolumeClaim pvc with
                                | Some c => claimName c
                                | None => "undefined"
                                end) pvcs
               else []
           | None => []
           end
         else [])
     ++ (if 0 <? Js.length (containersOf pod) then
           containersHeading
           :: List.map (fun c =>
                containerLine (cs_name c) (cs_ready c)
                              (Js.pop (Js.split "/" (cs_image c))))
                (containersOf pod)
         else [])
     ++ [Log (colors.dim ++ podRule ++ colors.reset ++ nl)])%list.
Proof. reflexivity. Qed.

Ltac other_line H :=
  apply (f_equal lineStart) in H; vm_compute in H; discriminate H.

(** The line of the status starts like no heading and like no line of a
    claim. *)
Lemma statusLine_not_heading (status rest : string) (o : Out) :
  lineStart o = lineStart volumesHeading
  \/ lineStart o = lineStart containersHeading
  \/ lineStart o = lineStart (claimLine EmptyString) ->
  Log ("   " ++ match statusIcons status with
                | Some icon => icon
                | None => "❓"
                end ++ rest) <> o.
Proof.
  intros Hh H. apply (f_equal lineStart) in H. unfold statusIcons in H.
  repeat match type of H with
  | context [String.eqb status ?k] => destruct (String.eqb status k)
  end;
  destruct Hh as [Hh | [Hh | Hh]]; rewrite Hh in H; vm_compute in H;
    discriminate H.
Qed.

(** X6. A pod without container statuses, absent or empty, reports
    [No restarts] and has no section of containers. *)
Theorem printPodInfo_without_containers
        (Date_parse : string -> option Z) (now : Z) (pod : Pod) :
  containerStatuses (pod_status pod) = None
  \/ containerStatuses (pod_status pod) = Some [] ->
  In (restartsLine (colors.green ++ "No restarts" ++ colors.reset))
     (printPodInfo Date_parse now pod)
  /\ ~ In containersHeading (printPodInfo Date_parse now pod).
Proof.
  intro Hc.
  assert (Hcs : containersOf pod = [])
    by (unfold containersOf; destruct Hc as [-> | ->]; reflexivity).
  rewrite printPodInfo_parts, Hcs. cbn [mainContainer Js.find List.find hd_error
    lastRestartTime Js.length List.length Z.of_nat Z.ltb Z.compare].
  split.
  - rewrite !in_app_iff. right. right. left. do 3 right. left. reflexivity.
  - rewrite !in_app_iff. intros [H|[H|[H|[H|[H|H]]]]].
    + destruct H as [H|[]]. other_line H.
    + destruct (Js.truthyString _); [|destruct H].
      destruct H as [H|[]]. other_line H.
    + destruct H as [H|[H|[H|[H|[H|[]]]]]]; try (other_line H).
      revert H. apply statusLine_not_heading. right. now left.
    + destruct (Js.truthyBool _); [|destruct H].
      destruct (volumes _); [|destruct H].
      cbv zeta in H. destruct (0 <? _); [|destruct H].
      destruct H as [H|H]; [other_line H|].
      apply in_map_iff in H. destruct H as (v & H & _). other_line H.
    + destruct H.
    + destruct H as [H|[]]. other_line H.
Qed.

Lemma printPodInfo_without_containers_witness :
  In (restartsLine (colors.green ++ "No restarts" ++ colors.reset))
     (printPodInfo exampleDate exampleStart (barePod "agent" "Pending"))
  /\ ~ In containersHeading
          (printPodInfo exampleDate exampleStart (barePod "agent" "Pending")).
Proof.
  exact (printPodInfo_without_containers exampleDate exampleStart
           (barePod "agent" "Pending") (or_introl eq_refl)).
Defined.

(** X7. A pod without start time shows [N/A] as uptime and a pod without
    node shows [Unscheduled]; an empty string counts as missing.  Otherwise
    the block shows the formatted uptime and the name of the node. *)
Theorem printPodInfo_fallbacks
        (Date_parse : string -> option Z) (now : Z) (pod : Pod) :
  (startTime (pod_status pod) = None
   \/ startTime (pod_status pod) = Some EmptyString ->
   In (uptimeLine "N/A") (printPodInfo Date_parse now pod))
  /\ (forall t, startTime (pod_status pod) = Some t -> t <> EmptyString ->
        In (uptimeLine (formatUptime Date_parse now t))
           (printPodInfo Date_parse now pod))
  /\ (nodeName (pod_spec pod) = None \/ nodeName (pod_spec pod) = Some EmptyString ->
      In (nodeLine "Unscheduled") (printPodInfo Date_parse now pod))
  /\ (forall n, nodeName (pod_spec pod) = Some n -> n <> EmptyString ->
        In (nodeLine n) (printPodInfo Date_parse now pod)).
Proof.
  rewrite printPodInfo_parts.
  repeat split.
  - intros [H | H]; rewrite H, !in_app_iff; right; right; left;
      right; right; left; reflexivity.
  - intros t H Ht. rewrite H, !in_app_iff. right; right; left.
    right; right; left. destruct t; [congruence | reflexivity].
  - intros [H | H]; rewrite H, !in_app_iff; right; right; left;
      right; left; reflexivity.
  - intros n H Hn. rewrite H, !in_app_iff. right; right; left.
    right; left. destruct n; [congruence | reflexivity].
Qed.

Lemma printPodInfo_fallbacks_witness :
  In (uptimeLine "N/A")
     (printPodInfo exampleDate exampleStart (barePod "agent" "Pending"))
  /\ In (nodeLine "Unscheduled")
        (printPodInfo exampleDate exampleStart (barePod "agent" "Pending"))
  /\ In (nodeLine "node-1")
        (printPodInfo exampleDate exampleStart examplePod).
Proof.
  destruct (printPodInfo_fallbacks exampleDate exampleStart
              (barePod "agent" "Pending")) as (Hu & _ & Hn & _).
  destruct (printPodInfo_fallbacks exampleDate exampleStart examplePod)
    as (_ & _ & _ & Hn').
  split; [exact (Hu (or_introl eq_refl))|].
  split; [exact (Hn (or_introl eq_refl))|].
  exact (Hn' "node-1" eq_refl ltac:(discriminate)).
Defined.

(** X8. The section of persistent volumes belongs to StatefulSet pods: a
    pod that is not detected as one shows neither the heading nor a claim,
    whatever its volumes; a StatefulSet pod shows the heading and the name of
    the claim of each volume that has one. *)
Theorem printPodInfo_persistent_volumes
        (Date_parse : string -> option Z) (now : Z) (pod : Pod) :
  (Js.truthyBool (isStatefulSet pod) = false ->
   ~ In volumesHeading (printPodInfo Date_parse now pod)
   /\ (forall claim, ~ In (claimLine claim) (printPodInfo Date_parse now pod)))
  /\ (Js.truthyBool (isStatefulSet pod) = true ->
      forall vols v c,
        volumes (pod_spec pod) = Some vols -> In v vols ->
        persistentVolumeClaim v = Some c ->
        In volumesHeading (printPodInfo Date_parse now pod)
        /\ In (claimLine (claimName c)) (printPodInfo Date_parse now pod)).
Proof.
  rewrite printPodInfo_parts. split.
  - intro Hss. rewrite Hss.
    assert (Hno : forall o,
              lineStart o = lineStart volumesHeading
              \/ lineStart o = lineStart (claimLine EmptyString) ->
              ~ In o
                  ([Log (colors.bright ++ "📦" ++ " " ++ "Pod" ++ ": " ++ colors.cyan
                         ++ pod_name (pod_metadata pod) ++ colors.reset)]
                   ++ (if Js.truthyString (statefulSetName pod) then
                         [Log ("   🏗️  StatefulSet: " ++ colors.magenta
                               ++ Js.show (statefulSetName pod) ++ colors.reset)]
                       else [])
                   ++ [Log ("   " ++ match statusIcons (phase (pod_status pod)) with
                                     | Some icon => icon
                                     | None => "❓"
                                     end
                            ++ " Status: " ++ getStatusColor (phase (pod_status pod))
                            ++ phase (pod_status pod) ++ colors.reset);
                       nodeLine (Js.orString (nodeName (pod_spec pod)) "Unscheduled");
                       uptimeLine (match startTime (pod_status pod) with
                                   | Some t => if Js.truthy t
                                               then formatUptime Date_parse now t
                                               else "N/A"
                                   | None => "N/A"
                                   end);
                       restartsLine
                         (formatRestartInfo Date_parse now
                            (match mainContainer (containersOf pod) with
                             | Some c => cs_restartCount c
                             | None => 0
                             end)
                            (lastRestartTime (mainContainer (containersOf pod))));
                       Log ("   🏥 Health: "
                            ++ formatHealthStatus (conditions (pod_status pod)))]
                   ++ []
                   ++ (if 0 <? Js.length (containersOf pod) then
                         containersHeading
                         :: List.map (fun c =>
                              containerLine (cs_name c) (cs_ready c)
                                            (Js.pop (Js.split "/" (cs_image c))))
                              (containersOf pod)
                       else [])
                   ++ [Log (colors.dim ++ podRule ++ colors.reset ++ nl)])%list).
    { intros o Ho. rewrite !in_app_iff. intros [H|[H|[H|[H|[H|H]]]]].
      - destruct H as [H|[]]. apply (f_equal lineStart) in H.
        destruct Ho as [Ho|Ho]; rewrite Ho in H; vm_compute in H; discriminate H.
      - destruct (Js.truthyString _); [|destruct H].
        destruct H as [H|[]]. apply (f_equal lineStart) in H.
        destruct Ho as [Ho|Ho]; rewrite Ho in H; vm_compute in H; discriminate H.
      - destruct H as [H|H].
        + revert H. apply statusLine_not_heading. tauto.
        + destruct H as [H|[H|[H|[H|[]]]]]; apply (f_equal lineStart) in H;
            destruct Ho as [Ho|Ho]; rewrite Ho in H; vm_compute in H;
            discriminate H.
      - destruct H.
      - destruct (0 <? _); [|destruct H].
        destruct H as [H|H].
        + apply (f_equal lineStart) in H.
          destruct Ho as [Ho|Ho]; rewrite Ho in H; vm_compute in H; discriminate H.
        + apply in_map_iff in H. destruct H as (c & H & _).
          apply (f_equal lineStart) in H.
          destruct Ho as [Ho|Ho]; rewrite Ho in H; vm_compute in H; discriminate H.
      - destruct H as [H|[]]. apply (f_equal lineStart) in H.
        destruct Ho as [Ho|Ho]; rewrite Ho in H; vm_compute in H; discriminate H. }
    split; [apply Hno; now left|].
    intro claim. apply Hno. right. reflexivity.
  - intros Hss vols v c Hv Hin Hc. rewrite Hss, Hv. cbv zeta.
    assert (Hf : In v (Js.filter (fun v => match persistentVolumeClaim v with
                                           | Some _ => true
                                           | None => false
                                           end) vols)).
    { unfold Js.filter. apply filter_In. split; [exact Hin|]. now rewrite Hc. }
    assert (Hlen : (0 <? Js.length
                           (Js.filter (fun v => match persistentVolumeClaim v with
                                                | Some _ => true
                                                | None => false
                                                end) vols)) = true).
    { destruct (Js.filter _ vols); [destruct Hf | reflexivity]. }
    rewrite Hlen, !in_app_iff. split.
    + right; right; right; left. now left.
    + right; right; right; left. right. apply in_map_iff.
      exists v. split; [now rewrite Hc | exact Hf].
Qed.

Lemma printPodInfo_persistent_volumes_witness :
  (In volumesHeading (printPodInfo exampleDate exampleStart examplePod)
   /\ In (claimLine "jenkins-home-cjoc-0")
         (printPodInfo exampleDate exampleStart examplePod))
  /\ ~ In volumesHeading
          (printPodInfo exampleDate exampleStart (barePod "agent" "Running")).
Proof.
  split.
  - exact (proj2 (printPodInfo_persistent_volumes exampleDate exampleStart examplePod)
             eq_refl _ (mkVolume (Some (mkPersistentVolumeClaim "jenkins-home-cjoc-0")))
             (mkPersistentVolumeClaim "jenkins-home-cjoc-0")
             eq_refl (or_introl eq_refl) eq_refl).
  - exact (proj1 (proj1 (printPodInfo_persistent_volumes exampleDate exampleStart
                           (barePod "agent" "Running")) eq_refl)).
Defined.

(** ** Containers and their images *)

Lemma string_app_assoc (a b c : string) : (a ++ b) ++ c = a ++ b ++ c.
Proof. induction a as [|x a IH]; simpl; [reflexivity | now rewrite IH]. Qed.

(** What [split] computes: pieces without the separator which, each
    followed by the separator but the last, make up the string. *)
Lemma split_pieces (c : ascii) (s : string) :
  exists front final,
    Js.split c s = (front ++ [final])%list
    /\ s = List.fold_right (fun piece rest => piece ++ String c rest) final front
    /\ lacks c final.
Proof.
  induction s as [|a s IH].
  - exists [], EmptyString. now repeat split.
  - destruct IH as (front & final & Hs & Hcat & Hl). simpl.
    destruct (Ascii.eqb_spec a c) as [->|Hne].
    + exists (EmptyString :: front), final. rewrite Hs. simpl.
      repeat split; [now rewrite <- Hcat | exact Hl].
    + rewrite Hs. destruct front as [|p front]; simpl.
      * exists [], (String a final). simpl in Hcat. subst s. now repeat split.
      * exists (String a p :: front), final. simpl in Hcat |- *.
        repeat split; [now rewrite <- Hcat | exact Hl].
Qed.

(** X9. The short image of a container line, [image.split('/').pop()], is
    what follows the last slash of the image: it holds no slash, and the
    image is the short image itself or a path ending with a slash followed
    by the short image. *)
Theorem short_image_after_last_slash (image : string) :
  let short := Js.pop (Js.split "/" image) in
  lacks "/" short
  /\ (image = short \/ exists path, image = path ++ "/" ++ short).
Proof.
  cbv zeta. destruct (split_pieces "/" image) as (front & final & Hs & Hcat & Hl).
  unfold Js.pop. rewrite Hs, List.last_last. split; [exact Hl|].
  clear Hs. revert image Hcat.
  induction front as [|p front IH]; intros image Hcat; simpl in Hcat.
  - now left.
  - right. destruct (IH _ eq_refl) as [Heq | [path Hp]].
    + exists p. rewrite Hcat. now rewrite Heq at 1.
    + exists (p ++ "/" ++ path). rewrite Hcat, Hp.
      now rewrite string_app_assoc.
Qed.

(** X10. Every container of a pod has its line in the block, under the
    heading of the containers: its name, whether it is ready and its short
    image. *)
Theorem printPodInfo_container_lines
        (Date_parse : string -> option Z) (now : Z) (pod : Pod)
        (cs : list ContainerStatus) (c : ContainerStatus) :
  containerStatuses (pod_status pod) = Some cs ->
  In c cs ->
  In containersHeading (printPodInfo Date_parse now pod)
  /\ In (containerLine (cs_name c) (cs_ready c) (Js.pop (Js.split "/" (cs_image c))))
        (printPodInfo Date_parse now pod).
Proof.
  intros Hcs Hin.
  assert (Hc : containersOf pod = cs) by (unfold containersOf; now rewrite Hcs).
  rewrite printPodInfo_parts, Hc.
  assert (Hlen : (0 <? Js.length cs) = true)
    by (destruct cs; [destruct Hin | reflexivity]).
  rewrite Hlen, !in_app_iff. split.
  - do 4 right. left. now left.
  - do 4 right. left. right. apply in_map_iff. now exists c.
Qed.

Lemma printPodInfo_container_lines_witness :
  In containersHeading (printPodInfo exampleDate exampleStart examplePod)
  /\ In (containerLine "jenkins" true "cloudbees-core-oc:2.4")
        (printPodInfo exampleDate exampleStart examplePod).
Proof.
  exact (printPodInfo_container_lines exampleDate exampleStart examplePod _
           (mkContainerStatus "jenkins" "docker.io/cloudbees/cloudbees-core-oc:2.4"
                              true 0 None)
           eq_refl (or_intror (or_introl eq_refl))).
Defined.

(** ** The summary: counts and StatefulSets *)

Lemma phase_counts_bounded (pods : list Pod) :
  (countPhase "Running" pods + countPhase "Pending" pods + countPhase "Failed" pods
   <= List.length pods)%nat.
Proof.
  unfold countPhase. induction pods as [|p pods IH]; simpl; [lia|].
  destruct (String.string_dec (phase (pod_status p)) "Running") as [H1|H1];
    destruct (String.string_dec (phase (pod_status p)) "Pending") as [H2|H2];
    destruct (String.string_dec (phase (pod_status p)) "Failed") as [H3|H3];
    try (rewrite H1 in H2; discriminate H2);
    try (rewrite H1 in H3; discriminate H3);
    try (rewrite H2 in H3; discriminate H3);
    lia.
Qed.

(** X11. The counts of the summary are consistent: the pods running,
    pending and failed are distinct pods, so their counts add up to at most
    the total, as does the count of StatefulSet pods; and a HEALTHY verdict
    means that no pod is pending or failed. *)
Theorem printSummary_counts_consistent (pods : list Pod) :
  0 <= runningPods pods /\ 0 <= pendingPods pods /\ 0 <= failedPods pods
  /\ runningPods pods + pendingPods pods + failedPods pods <= totalPods pods
  /\ 0 <= statefulSetPods pods <= totalPods pods
  /\ (healthStatus pods = "HEALTHY" ->
      0 < totalPods pods /\ runningPods pods = totalPods pods
      /\ pendingPods pods = 0 /\ failedPods pods = 0).
Proof.
  pose proof (phase_counts_bounded pods) as Hsum.
  assert (Hr : runningPods pods = Z.of_nat (countPhase "Running" pods))
    by apply filter_phase_length.
  assert (Hp : pendingPods pods = Z.of_nat (countPhase "Pending" pods))
    by apply filter_phase_length.
  assert (Hf : failedPods pods = Z.of_nat (countPhase "Failed" pods))
    by apply filter_phase_length.
  assert (Ht : totalPods pods = Z.of_nat (List.length pods)) by reflexivity.
  assert (Hs : 0 <= statefulSetPods pods <= totalPods pods).
  { unfold statefulSetPods, totalPods, Js.length, Js.filter.
    pose proof (List.filter_length_le
                  (fun p => Js.truthyBool (isStatefulSet p)) pods).
    lia. }
  repeat split; try lia.
  - unfold healthStatus in H.
    destruct (0 <? totalPods pods) eqn:Hpos;
      [apply Z.ltb_lt in Hpos; exact Hpos|].
    rewrite andb_false_r in H. destruct (0 <? failedPods pods); discriminate H.
  - unfold healthStatus in H.
    destruct (runningPods pods =? totalPods pods) eqn:He;
      [apply Z.eqb_eq in He; exact He|].
    simpl in H. destruct (0 <? failedPods pods); discriminate H.
  - unfold healthStatus in H.
    destruct (runningPods pods =? totalPods pods) eqn:He;
      [apply Z.eqb_eq in He; lia|].
    simpl in H. destruct (0 <? failedPods pods); discriminate H.
  - unfold healthStatus in H.
    destruct (runningPods pods =? totalPods pods) eqn:He;
      [apply Z.eqb_eq in He; lia|].
    simpl in H. destruct (0 <? failedPods pods); discriminate H.
Qed.

Lemma printSummary_counts_consistent_witness :
  0 < totalPods [examplePod] /\ runningPods [examplePod] = totalPods [examplePod]
  /\ pendingPods [examplePod] = 0 /\ failedPods [examplePod] = 0.
Proof.
  destruct (printSummary_counts_consistent [examplePod]) as (_ & _ & _ & _ & _ & H).
  exact (H eq_refl).
Defined.

(** X12. Every StatefulSet has its line in the summary, with its ready,
    desired and current replicas, a missing count reading 0.  The line is in
    the colour of ok when ready equals desired, of error when it does not
    and nothing is ready, and of warn otherwise. *)
Theorem printSummary_statefulSet_lines
        (pods : list Pod) (statefulSets : list StatefulSet) (sts : StatefulSet) :
  In sts statefulSets ->
  let count (field : option Z) := match field with Some n => n | None => 0 end in
  let desired := count (sts_replicas sts) in
  let ready := count (sts_readyReplicas sts) in
  let current := count (sts_currentReplicas sts) in
  exists c : Severity,
    In (statefulSetLine (severityColor c) (sts_name sts) ready desired current)
       (printSummary pods statefulSets)
    /\ (ready = desired -> c = ok)
    /\ (ready <> desired -> ready = 0 -> c = error)
    /\ (ready <> desired -> ready <> 0 -> c = warn).
Proof.
  intros Hin count desired ready current.
  assert (Hcount : forall field, Js.orZero field = count field).
  { intros [n|]; [|reflexivity]. simpl.
    destruct (Z.eqb_spec n 0); congruence. }
  exists (if ready =? desired then ok else if ready =? 0 then error else warn).
  split; [|repeat split].
  - unfold printSummary. cbv zeta. rewrite !in_app_iff. right. left.
    replace (0 <? Js.length statefulSets) with true
      by (destruct statefulSets; [destruct Hin | reflexivity]).
    right. apply in_map_iff. exists sts. split; [|exact Hin].
    rewrite !Hcount. fold desired ready current. unfold statefulSetLine.
    destruct (ready =? desired); [reflexivity|].
    destruct (ready =? 0); reflexivity.
  - intros ->. now rewrite Z.eqb_refl.
  - intros Hne ->. replace (0 =? desired) with false
      by (symmetry; apply Z.eqb_neq; exact Hne).
    reflexivity.
  - intros Hne Hz. replace (ready =? desired) with false
      by (symmetry; apply Z.eqb_neq; exact Hne).
    now replace (ready =? 0) with false by (symmetry; apply Z.eqb_neq; exact Hz).
Qed.

(** The examples of the specification: 3 of 3 ready is ok, 0 of 3 is an
    error, and a StatefulSet without any count reads 0/0 and is ok. *)
Lemma printSummary_statefulSet_lines_witness :
  In (statefulSetLine colors.red "cjoc" 0 3 0)
     (printSummary [] [mkStatefulSet "cjoc" (Some 3) None None])
  /\ In (statefulSetLine colors.green "oc" 0 0 0)
        (printSummary [] [mkStatefulSet "oc" None None None]).
Proof.
  split.
  - destruct (printSummary_statefulSet_lines []
                [mkStatefulSet "cjoc" (Some 3) None None]
                (mkStatefulSet "cjoc" (Some 3) None None) (or_introl eq_refl))
      as (c & Hin & _ & Herr & _).
    rewrite (Herr ltac:(discriminate) eq_refl) in Hin. exact Hin.
  - destruct (printSummary_statefulSet_lines []
                [mkStatefulSet "oc" None None None]
                (mkStatefulSet "oc" None None None) (or_introl eq_refl))
      as (c & Hin & Hok & _).
    rewrite (Hok eq_refl) in Hin. exact Hin.
Defined.

(** ** Icons and colours *)

(** X13. The two tables of phases agree: a phase without an icon of its
    own is muted, and every phase with a colour of its own has an icon of its
    own, which is not the question mark of the unknown phases. *)
Theorem statusIcons_agree_with_colors (status : string) :
  (statusIcons status = None -> getStatusColor status = colors.dim)
  /\ (getStatusColor status <> colors.dim ->
      exists icon, statusIcons status = Some icon /\ icon <> "❓").
Proof.
  destruct (List.in_dec String.string_dec status namedPhases) as [Hin|Hnot].
  - simpl in Hin.
    destruct Hin as [<-|[<-|[<-|[<-|[<-|[<-|[<-|[]]]]]]]]; split;
      try discriminate;
      intros _; eexists; (split; [reflexivity | discriminate]).
  - split; intro H.
    + now apply getStatusColor_default.
    + exfalso. apply H. now apply getStatusColor_default.
Qed.

Lemma statusIcons_agree_with_colors_witness :
  getStatusColor "Terminating" = colors.dim
  /\ exists icon, statusIcons "CrashLoopBackOff" = Some icon /\ icon <> "❓".
Proof.
  split.
  - exact (proj1 (statusIcons_agree_with_colors "Terminating") eq_refl).
  - exact (proj2 (statusIcons_agree_with_colors "CrashLoopBackOff")
             ltac:(vm_compute; discriminate)).
Defined.

(** ** Fetchers: what they let through *)

(** The falsy values of JSON. *)
Lemma truthy_false_values {D : Type} (v : Json D) :
  truthy v = false
  <-> v = JNull \/ v = JBool false \/ v = JNumber 0 \/ v = JString EmptyString.
Proof.
  split.
  - destruct v as [|b|n|s|l|f]; simpl; intro H; try discriminate.
    + now left.
    + right. left. now subst b.
    + right. right. left. apply negb_false_iff, Z.eqb_eq in H. now subst n.
    + right. right. right. destruct s; [reflexivity | discriminate].
  - intros [-> | [-> | [-> | ->]]]; reflexivity.
Qed.

Section FetcherMore.

Variable execAsync : string -> Js.Completion ExecOutput.
Variable JSON_parse : forall k : Kind, string -> Js.Completion (Json (Doc k)).
Variable this : JenkinsPodMonitor.

(** X14. A fetcher never raises an error whose message holds
    [No resources found]: when the command or the parser raises such an
    error, the fetcher returns an empty sequence instead, and reading
    [items] raises no such error. *)
Theorem fetchers_never_raise_not_found :
  SwallowsNotFound (execAsync (podsCommand this)) (JSON_parse PodKind)
                   (getJenkinsPods execAsync JSON_parse this)
  /\ SwallowsNotFound (execAsync (statefulSetsCommand this))
                      (JSON_parse StatefulSetKind)
                      (getStatefulSets execAsync JSON_parse this).
Proof.
  assert (Hread : forall (D : Type) (data : Json D) e,
            get_items data = Js.Rejected e -> noResourcesFound e = false).
  { intros D data e H. destruct data; try discriminate H.
    injection H as <-. reflexivity. }
  split; (split; [|split; [|split; [|apply Hread]]]).
  - intro e. rewrite getJenkinsPods_steps. cbv zeta.
    destruct (execAsync _) as [out|e0];
      [destruct (JSON_parse PodKind (stdout out)) as [data|e0];
       [destruct (get_items data) as [items|e0]|]|];
      try discriminate;
      destruct (noResourcesFound e0) eqn:He0; try discriminate;
      intros [= <-]; exact He0.
  - intros e He Ht. rewrite getJenkinsPods_steps, He. cbv beta iota zeta. now rewrite Ht.
  - intros out e He Hj Ht. rewrite getJenkinsPods_steps, He. cbv beta iota zeta.
    now rewrite Hj, Ht.
  - intro e. rewrite getStatefulSets_steps. cbv zeta.
    destruct (execAsync _) as [out|e0];
      [destruct (JSON_parse StatefulSetKind (stdout out)) as [data|e0];
       [destruct (get_items data) as [items|e0]|]|];
      try discriminate;
      destruct (noResourcesFound e0) eqn:He0; try discriminate;
      intros [= <-]; exact He0.
  - intros e He Ht. rewrite getStatefulSets_steps, He. cbv beta iota zeta. now rewrite Ht.
  - intros out e He Hj Ht. rewrite getStatefulSets_steps, He. cbv beta iota zeta.
    now rewrite Hj, Ht.
Qed.

(** X15. When the response is an object with an [items] field, each
    fetcher returns the value of the field as it is if it is truthy, array or
    not, and an empty sequence if it is falsy: [null], [false], 0 or the
    empty string. *)
Theorem fetchers_items_field :
  (forall out fields v,
      execAsync (podsCommand this) = Js.Resolved out ->
      JSON_parse PodKind (stdout out) = Js.Resolved (JObject fields) ->
      lookup "items" fields = Some v ->
      (truthy v = true ->
       getJenkinsPods execAsync JSON_parse this = Js.Resolved v)
      /\ (v = JNull \/ v = JBool false \/ v = JNumber 0 \/ v = JString EmptyString ->
          getJenkinsPods execAsync JSON_parse this = Js.Resolved (JArray [])))
  /\ (forall out fields v,
        execAsync (statefulSetsCommand this) = Js.Resolved out ->
        JSON_parse StatefulSetKind (stdout out) = Js.Resolved (JObject fields) ->
        lookup "items" fields = Some v ->
        (truthy v = true ->
         getStatefulSets execAsync JSON_parse this = Js.Resolved v)
        /\ (v = JNull \/ v = JBool false \/ v = JNumber 0
            \/ v = JString EmptyString ->
            getStatefulSets execAsync JSON_parse this = Js.Resolved (JArray []))).
Proof.
  split; intros out fields v He Hj Hl.
  - rewrite getJenkinsPods_steps, He. cbv beta iota zeta.
    rewrite Hj. unfold get_items. cbn [Doc] in *. rewrite Hl. unfold orEmpty.
    split; [intros ->; reflexivity|].
    intro Hv. apply truthy_false_values in Hv. now rewrite Hv.
  - rewrite getStatefulSets_steps, He. cbv beta iota zeta.
    rewrite Hj. unfold get_items. cbn [Doc] in *. rewrite Hl. unfold orEmpty.
    split; [intros ->; reflexivity|].
    intro Hv. apply truthy_false_values in Hv. now rewrite Hv.
Qed.

End FetcherMore.

(** A refused query whose message holds the text and an error of the parser
    that quotes it give an empty sequence; a refused query whose message does
    not hold it is raised. *)
Lemma fetchers_never_raise_not_found_witness :
  getJenkinsPods (execExample (Js.Rejected (refusedPods labelledNotFound)))
                 parseExample labelledNotFound
  = Js.Resolved (JArray [])
  /\ getStatefulSets
       (execExample (Js.Resolved (mkExecOutput "No resources found" EmptyString)))
       parseQuoting cjocMonitor
     = Js.Resolved (JArray [])
  /\ noResourcesFound (refusedPods cjocMonitor) = false.
Proof.
  split; [|split].
  - exact (proj1 (proj2 (proj1 (fetchers_never_raise_not_found
             (execExample (Js.Rejected (refusedPods labelledNotFound)))
             parseExample labelledNotFound)))
             (refusedPods labelledNotFound) eq_refl eq_refl).
  - exact (proj1 (proj2 (proj2 (proj2 (fetchers_never_raise_not_found
             (execExample
                (Js.Resolved (mkExecOutput "No resources found" EmptyString)))
             parseQuoting cjocMonitor))))
             (mkExecOutput "No resources found" EmptyString) quotingSyntaxError
             eq_refl eq_refl eq_refl).
  - exact (proj1 (proj1 (fetchers_never_raise_not_found
             (execExample (Js.Rejected (refusedPods cjocMonitor)))
             parseExample cjocMonitor))
             (refusedPods cjocMonitor) eq_refl).
Defined.

(** A list whose [items] are [null] gives an empty sequence. *)
Lemma fetchers_items_field_witness :
  getJenkinsPods (execExample (Js.Resolved (mkExecOutput "{...}" EmptyString)))
                 (fun k _ => Js.Resolved (JObject [("items", JNull)])) cjocMonitor
  = Js.Resolved (JArray [])
  /\ getStatefulSets (execExample (Js.Resolved (mkExecOutput "{...}" EmptyString)))
                     (parseCluster [] [mkStatefulSet "cjoc" None None None])
                     cjocMonitor
     = Js.Resolved (JArray [mkStatefulSet "cjoc" None None None]).
Proof.
  split.
  - exact (proj2 (proj1 (fetchers_items_field
             (execExample (Js.Resolved (mkExecOutput "{...}" EmptyString)))
             (fun k _ => Js.Resolved (JObject [("items", JNull)])) cjocMonitor)
             (mkExecOutput "{...}" EmptyString) [("items", JNull)] JNull
             eq_refl eq_refl eq_refl) (or_introl eq_refl)).
  - exact (proj1 (proj2 (fetchers_items_field
             (execExample (Js.Resolved (mkExecOutput "{...}" EmptyString)))
             (parseCluster [] [mkStatefulSet "cjoc" None None None]) cjocMonitor)
             (mkExecOutput "{...}" EmptyString)
             [("kind", JString "List");
              ("items", JArray [mkStatefulSet "cjoc" None None None])]
             (JArray [mkStatefulSet "cjoc" None None None])
             eq_refl eq_refl eq_refl) eq_refl).
Defined.

(** ** Runs *)

Section RunMore.

Variable env : string -> option string.
Variable execAsync : string -> Js.Completion ExecOutput.
Variable JSON_parse : forall k : Kind, string -> Js.Completion (Json (Doc k)).
Variable Date_parse : string -> option Z.
Variable now : Z.
Variable localeNow : string.
Variable settlesFirst : Kind.

Local Notation "'thisRun'" :=
  (run execAsync JSON_parse Date_parse now localeNow settlesFirst).
Local Notation "'thisMain'" :=
  (main env execAsync JSON_parse Date_parse now localeNow settlesFirst).

(** [run] without [kubectl]. *)
Lemma run_kubectl_missing (this : JenkinsPodMonitor) (e : Js.Error) :
  execAsync "kubectl version --client" = Js.Rejected e ->
  thisRun this = Some ((printHeader localeNow this ++ [kubectlMissingLine])%list, Exited 1).
Proof.
  intro Hv. unfold run, checkKubectl. now rewrite Hv.
Qed.

(** [run] when the queries are rejected with [e]. *)
Lemma run_queries_rejected (this : JenkinsPodMonitor) (version : ExecOutput)
      (e : Js.Error) :
  execAsync "kubectl version --client" = Js.Resolved version ->
  Promise_all settlesFirst (getJenkinsPods execAsync JSON_parse this)
              (getStatefulSets execAsync JSON_parse this) = Js.Rejected e ->
  thisRun this
  = Some ((printHeader localeNow this ++ [searchLine; errorLine e])%list, Exited 1).
Proof.
  intros Hv Hq. unfold run, checkKubectl. rewrite Hv, Hq. reflexivity.
Qed.

(** [run] when both queries give arrays that are not both empty. *)
Lemma run_renders (this : JenkinsPodMonitor) (version : ExecOutput)
      (pods : list Pod) (statefulSets : list StatefulSet) :
  execAsync "kubectl version --client" = Js.Resolved version ->
  getJenkinsPods execAsync JSON_parse this = Js.Resolved (JArray pods) ->
  getStatefulSets execAsync JSON_parse this = Js.Resolved (JArray statefulSets) ->
  pods <> [] \/ statefulSets <> [] ->
  thisRun this
  = Some ((printHeader localeNow this ++ [searchLine]
           ++ List.flat_map (printPodInfo Date_parse now) pods
           ++ printSummary pods statefulSets)%list, Returned).
Proof.
  intros Hv Hp Hs Hne. unfold run, checkKubectl, Promise_all.
  rewrite Hv, Hp, Hs. cbn [negb]. cbv iota.
  replace ((Js.length pods =? 0) && (Js.length statefulSets =? 0)) with false;
    [reflexivity|].
  destruct pods; destruct statefulSets; try reflexivity.
  destruct Hne; congruence.
Qed.

(** X16. Without [kubectl], [run] writes the header and one line on
    standard error, which does not tell the error of the command, and leaves
    the process with status 1, whatever the queries would answer; so does a
    single run of the script. *)
Theorem run_without_kubectl (argv : list string) (e : Js.Error) :
  execAsync "kubectl version --client" = Js.Rejected e ->
  thisRun (newMonitor env)
  = Some ((printHeader localeNow (newMonitor env) ++ [kubectlMissingLine])%list,
          Exited 1)
  /\ (helpAsked argv = false -> watchAsked argv = false ->
      thisMain argv
      = Some ((printHeader localeNow (newMonitor env) ++ [kubectlMissingLine])%list,
              ExitStatus 1)).
Proof.
  intro Hv. pose proof (run_kubectl_missing (newMonitor env) e Hv) as Hrun.
  split; [exact Hrun|].
  intros Hh Hw. unfold main. fold (helpAsked argv) (watchAsked argv).
  now rewrite Hh, Hw, Hrun.
Qed.

(** X17. When a query fails, [run] writes the header, the line of the
    search and one line with the message of the error, and leaves the process
    with status 1.  The error is that of the query that failed; when both
    fail, it is that of the query that settles first. *)
Theorem run_query_failure (this : JenkinsPodMonitor) (version : ExecOutput) :
  execAsync "kubectl version --client" = Js.Resolved version ->
  let failure (e : Js.Error) :=
    thisRun this
    = Some ((printHeader localeNow this ++ [searchLine; errorLine e])%list,
            Exited 1) in
  (forall e v, getJenkinsPods execAsync JSON_parse this = Js.Rejected e ->
               getStatefulSets execAsync JSON_parse this = Js.Resolved v ->
               failure e)
  /\ (forall e v, getJenkinsPods execAsync JSON_parse this = Js.Resolved v ->
                  getStatefulSets execAsync JSON_parse this = Js.Rejected e ->
                  failure e)
  /\ (forall e1 e2, getJenkinsPods execAsync JSON_parse this = Js.Rejected e1 ->
                    getStatefulSets execAsync JSON_parse this = Js.Rejected e2 ->
                    failure match settlesFirst with
                            | PodKind => e1
                            | StatefulSetKind => e2
                            end).
Proof.
  intros Hv failure. unfold failure. repeat split.
  - intros e v Hp Hs. apply (run_queries_rejected this version e Hv).
    unfold Promise_all. now rewrite Hp, Hs.
  - intros e v Hp Hs. apply (run_queries_rejected this version e Hv).
    unfold Promise_all. now rewrite Hp, Hs.
  - intros e1 e2 Hp Hs. apply (run_queries_rejected this version _ Hv).
    unfold Promise_all. rewrite Hp, Hs. now destruct settlesFirst.
Qed.

(** X18. When both queries give arrays that are not both empty, [run]
    writes the header, the line of the search, the block of each pod in the
    order of the list and the summary, and returns; a single run of the
    script then ends with status 0. *)
Theorem run_report (argv : list string) (version : ExecOutput)
        (pods : list Pod) (statefulSets : list StatefulSet) :
  let this := newMonitor env in
  execAsync "kubectl version --client" = Js.Resolved version ->
  getJenkinsPods execAsync JSON_parse this = Js.Resolved (JArray pods) ->
  getStatefulSets execAsync JSON_parse this = Js.Resolved (JArray statefulSets) ->
  pods <> [] \/ statefulSets <> [] ->
  let report :=
    (printHeader localeNow this ++ [searchLine]
     ++ List.flat_map (printPodInfo Date_parse now) pods
     ++ printSummary pods statefulSets)%list in
  thisRun this = Some (report, Returned)
  /\ (helpAsked argv = false -> watchAsked argv = false ->
      thisMain argv = Some (report, ExitStatus 0)).
Proof.
  intros this Hv Hp Hs Hne report.
  pose proof (run_renders this version pods statefulSets Hv Hp Hs Hne) as Hrun.
  split; [exact Hrun|].
  intros Hh Hw. unfold main. fold (helpAsked argv) (watchAsked argv).
  fold this. now rewrite Hh, Hw, Hrun.
Qed.

(** X19. StatefulSets without any pod are not the outcome where nothing is
    found: [run] writes the summary, which ends with the verdict DEGRADED,
    and none of the three lines of that outcome. *)
Theorem run_statefulSets_without_pods
        (this : JenkinsPodMonitor) (version : ExecOutput)
        (statefulSets : list StatefulSet) :
  execAsync "kubectl version --client" = Js.Resolved version ->
  getJenkinsPods execAsync JSON_parse this = Js.Resolved (JArray []) ->
  getStatefulSets execAsync JSON_parse this = Js.Resolved (JArray statefulSets) ->
  statefulSets <> [] ->
  thisRun this
  = Some ((printHeader localeNow this ++ [searchLine]
           ++ printSummary [] statefulSets)%list, Returned)
  /\ (exists front,
        printSummary [] statefulSets
        = (front ++ [verdictLine colors.yellow "DEGRADED" "🟡"])%list)
  /\ (forall line, In line (noResources this) ->
        ~ In line (printHeader localeNow this ++ [searchLine]
                   ++ printSummary [] statefulSets)%list).
Proof.
  intros Hv Hp Hs Hne. split; [|split].
  - rewrite (run_renders this version [] statefulSets Hv Hp Hs (or_intror Hne)).
    reflexivity.
  - unfold printSummary. eexists. rewrite app_assoc. reflexivity.
  - intros line Hin Hout.
    assert (Hnb : isBlockLine line = false).
    { apply (nothingFoundReport_lines localeNow this).
      unfold nothingFoundReport. rewrite !in_app_iff. now right; right. }
    rewrite !in_app_iff in Hout. destruct Hout as [Hout|[Hout|Hout]].
    + unfold noResources in Hin. unfold printHeader in Hout.
      repeat (destruct Hin as [<-|Hin];
              [repeat (destruct Hout as [H|Hout]; [other_line H|]);
               destruct Hout|]).
      destruct Hin.
    + unfold noResources in Hin. destruct Hout as [H|[]].
      repeat (destruct Hin as [<-|Hin]; [other_line H|]). destruct Hin.
    + apply printSummary_lines in Hout. congruence.
Qed.

(** X20. With [--help] or [-h] the script writes the usage and ends with
    status 0, whatever the other arguments, [--watch] included, and whatever
    [kubectl] and the cluster would answer. *)
Theorem main_help (argv : list string) :
  argvIncludes argv "--help" = true \/ argvIncludes argv "-h" = true ->
  thisMain argv = Some ([Log usage], ExitStatus 0).
Proof.
  intro H. unfold main.
  replace (argvIncludes argv "--help" || argvIncludes argv "-h") with true;
    [reflexivity|].
  symmetry. apply orb_true_iff. exact H.
Qed.

(** X21. The script reads its arguments for the four flags only: two lists
    of arguments that hold neither a help flag nor a watch flag give the same
    single run. *)
Theorem main_ignores_other_arguments (argv1 argv2 : list string) :
  helpAsked argv1 = false -> watchAsked argv1 = false ->
  helpAsked argv2 = false -> watchAsked argv2 = false ->
  thisMain argv1 = thisMain argv2.
Proof.
  intros Hh1 Hw1 Hh2 Hw2. unfold main.
  fold (helpAsked argv1) (watchAsked argv1) (helpAsked argv2) (watchAsked argv2).
  now rewrite Hh1, Hw1, Hh2, Hw2.
Qed.

(** X22. The first cycle of the watch mode clears the screen and runs.  If
    the run returns, the cycle ends with the line of the next refresh and the
    process stays alive; if the run leaves the process, as it does without
    [kubectl] or when a query fails, the watch ends there, with the status of
    the run and without the line of the refresh. *)
Theorem main_watch_first_cycle (argv : list string) (out : list Out) :
  helpAsked argv = false -> watchAsked argv = true ->
  (thisRun (newMonitor env) = Some (out, Returned) ->
   thisMain argv = Some ((Clear :: out ++ [refreshLine])%list, Alive))
  /\ (forall code, thisRun (newMonitor env) = Some (out, Exited code) ->
        thisMain argv = Some (Clear :: out, ExitStatus code))
  /\ (forall version e v,
        execAsync "kubectl version --client" = Js.Resolved version ->
        getJenkinsPods execAsync JSON_parse (newMonitor env) = Js.Rejected e ->
        getStatefulSets execAsync JSON_parse (newMonitor env) = Js.Resolved v ->
        thisMain argv
        = Some ((Clear :: printHeader localeNow (newMonitor env)
                 ++ [searchLine; errorLine e])%list, ExitStatus 1)).
Proof.
  intros Hh Hw.
  assert (Hret : thisRun (newMonitor env) = Some (out, Returned) ->
                 thisMain argv = Some ((Clear :: out ++ [refreshLine])%list, Alive)).
  { intro Hrun. unfold main, runMonitor.
    fold (helpAsked argv) (watchAsked argv). now rewrite Hh, Hw, Hrun. }
  assert (Hexit : forall out' code,
            thisRun (newMonitor env) = Some (out', Exited code) ->
            thisMain argv = Some (Clear :: out', ExitStatus code)).
  { intros out' code Hrun. unfold main, runMonitor.
    fold (helpAsked argv) (watchAsked argv). now rewrite Hh, Hw, Hrun. }
  split; [exact Hret|]. split; [apply Hexit|].
  intros version e v Hv Hp Hs. apply Hexit.
  apply (run_queries_rejected (newMonitor env) version e Hv).
  unfold Promise_all. now rewrite Hp, Hs.
Qed.

End RunMore.

(** X23. The monitor takes its namespace and its label selector from the
    environment; a variable that is not set, or set to the empty string,
    gives the default. *)
Theorem newMonitor_defaults (env : string -> option string) :
  (env "JENKINS_NAMESPACE" = None \/ env "JENKINS_NAMESPACE" = Some EmptyString ->
   namespace (newMonitor env) = "cloudbees-core")
  /\ (forall ns, env "JENKINS_NAMESPACE" = Some ns -> ns <> EmptyString ->
        namespace (newMonitor env) = ns)
  /\ (env "JENKINS_LABEL" = None \/ env "JENKINS_LABEL" = Some EmptyString ->
      labelSelector (newMonitor env) = "app.kubernetes.io/name=cloudbees-core")
  /\ (forall label, env "JENKINS_LABEL" = Some label -> label <> EmptyString ->
        labelSelector (newMonitor env) = label).
Proof.
  unfold newMonitor. simpl. repeat split.
  - intros [H | H]; now rewrite H.
  - intros ns H Hne. rewrite H. destruct ns; [congruence | reflexivity].
  - intros [H | H]; now rewrite H.
  - intros label H Hne. rewrite H. destruct label; [congruence | reflexivity].
Qed.

(** ** The runs on the example platform *)

Lemma run_without_kubectl_witness :
  main noEnv kubectlAbsent parseExample exampleDate exampleStart "now" PodKind
       ["node"; "dashboard.js"]
  = Some ((printHeader "now" (newMonitor noEnv) ++ [kubectlMissingLine])%list,
          ExitStatus 1).
Proof.
  exact (proj2 (run_without_kubectl noEnv kubectlAbsent parseExample exampleDate
                  exampleStart "now" PodKind ["node"; "dashboard.js"] _ eq_refl)
           eq_refl eq_refl).
Defined.

(** Both queries refused, the pods first. *)
Lemma run_query_failure_witness :
  run (execExample (Js.Rejected forbidden)) parseExample exampleDate exampleStart
      "now" PodKind cjocMonitor
  = Some ((printHeader "now" cjocMonitor ++ [searchLine; errorLine forbidden])%list,
          Exited 1).
Proof.
  exact (proj2 (proj2 (run_query_failure (execExample (Js.Rejected forbidden))
                         parseExample exampleDate exampleStart "now" PodKind
                         cjocMonitor _ eq_refl))
           forbidden forbidden eq_refl eq_refl).
Defined.

Lemma run_report_witness :
  main noEnv answering (parseCluster [examplePod] [cjocSet]) exampleDate
       exampleStart "now" PodKind ["node"; "dashboard.js"]
  = Some ((printHeader "now" (newMonitor noEnv) ++ [searchLine]
           ++ List.flat_map (printPodInfo exampleDate exampleStart) [examplePod]
           ++ printSummary [examplePod] [cjocSet])%list,
          ExitStatus 0).
Proof.
  refine (proj2 (run_report noEnv answering (parseCluster [examplePod] [cjocSet])
                   exampleDate exampleStart "now" PodKind ["node"; "dashboard.js"]
                   (mkExecOutput "Client Version: v1.28.2" EmptyString)
                   [examplePod] [cjocSet] _ _ _ _) _ _);
    try (vm_compute; reflexivity).
  left. discriminate.
Defined.

Lemma run_statefulSets_without_pods_witness :
  run answering (parseCluster [] [cjocSet]) exampleDate exampleStart "now" PodKind
      cjocMonitor
  = Some ((printHeader "now" cjocMonitor ++ [searchLine]
           ++ printSummary [] [cjocSet])%list, Returned).
Proof.
  exact (proj1 (run_statefulSets_without_pods answering (parseCluster [] [cjocSet])
                  exampleDate exampleStart "now" PodKind cjocMonitor _ [cjocSet]
                  eq_refl eq_refl eq_refl ltac:(discriminate))).
Defined.

(** The help wins over the watch mode, also without [kubectl]. *)
Lemma main_help_witness :
  main noEnv kubectlAbsent parseExample exampleDate exampleStart "now" PodKind
       ["node"; "dashboard.js"; "--watch"; "-h"]
  = Some ([Log usage], ExitStatus 0).
Proof.
  exact (main_help noEnv kubectlAbsent parseExample exampleDate exampleStart "now"
           PodKind ["node"; "dashboard.js"; "--watch"; "-h"] (or_intror eq_refl)).
Defined.

Lemma main_ignores_other_arguments_witness :
  main noEnv answering (parseCluster [examplePod] [cjocSet]) exampleDate
       exampleStart "now" PodKind ["node"; "dashboard.js"]
  = main noEnv answering (parseCluster [examplePod] [cjocSet]) exampleDate
         exampleStart "now" PodKind ["node"; "dashboard.js"; "--verbose"; "watch"].
Proof.
  exact (main_ignores_other_arguments noEnv answering
           (parseCluster [examplePod] [cjocSet]) exampleDate exampleStart "now"
           PodKind ["node"; "dashboard.js"]
           ["node"; "dashboard.js"; "--verbose"; "watch"]
           eq_refl eq_refl eq_refl eq_refl).
Defined.

(** A refused query ends the watch at its first cycle. *)
Lemma main_watch_first_cycle_witness :
  main noEnv (execExample (Js.Rejected forbidden)) (parseCluster [] []) exampleDate
       exampleStart "now" StatefulSetKind ["node"; "dashboard.js"; "-w"]
  = Some ((Clear :: printHeader "now" (newMonitor noEnv)
           ++ [searchLine; errorLine forbidden])%list, ExitStatus 1)
  /\ main noEnv answering (parseCluster [] []) exampleDate exampleStart "now"
          PodKind ["node"; "dashboard.js"; "--watch"]
     = Some ((Clear :: nothingFoundReport "now" (newMonitor noEnv)
              ++ [refreshLine])%list, Alive).
Proof.
  split.
  - exact (proj1 (proj2 (main_watch_first_cycle noEnv
                    (execExample (Js.Rejected forbidden))
                    (parseCluster [] []) exampleDate exampleStart "now"
                    StatefulSetKind ["node"; "dashboard.js"; "-w"]
                    (printHeader "now" (newMonitor noEnv)
                     ++ [searchLine; errorLine forbidden])%list
                    eq_refl eq_refl))
             1 eq_refl).
  - exact (proj1 (main_watch_first_cycle noEnv answering (parseCluster [] [])
                    exampleDate exampleStart "now" PodKind
                    ["node"; "dashboard.js"; "--watch"]
                    (nothingFoundReport "now" (newMonitor noEnv))
                    eq_refl eq_refl)
             eq_refl).
Defined.

Lemma newMonitor_defaults_witness :
  let env := fun name : string =>
    if String.eqb name "JENKINS_LABEL" then Some "app=cjoc"
    else Some EmptyString in
  namespace (newMonitor env) = "cloudbees-core"
  /\ labelSelector (newMonitor env) = "app=cjoc".
Proof.
  intro env.
  destruct (newMonitor_defaults env) as (Hns & _ & _ & Hlabel).
  split; [exact (Hns (or_intror eq_refl))|].
  exact (Hlabel "app=cjoc" eq_refl ltac:(discriminate)).
Defined.

(** ** The block of a pod and its StatefulSet *)

(** The line of the status does not start like the line of an owner. *)
Lemma statusLine_not_owner (status rest owner : string) :
  Log ("   " ++ match statusIcons status with
                | Some icon => icon
                | None => "❓"
                end ++ rest) <> ownerLine owner.
Proof.
  intro H. apply (f_equal lineStart) in H. unfold statusIcons in H.
  repeat match type of H with
  | context [String.eqb status ?k] => destruct (String.eqb status k)
  end;
  vm_compute in H; discriminate H.
Qed.

(** X24. The block of a pod that is not detected as a StatefulSet pod is
    titled [Pod] and has no line of an owner.  The block of a pod whose first
    StatefulSet reference has a name is titled [StatefulSet Pod] and names
    that StatefulSet. *)
Theorem printPodInfo_affiliation
        (Date_parse : string -> option Z) (now : Z) (pod : Pod) :
  (Js.truthyBool (isStatefulSet pod) = false ->
   In (titleLine "📦" "Pod" (pod_name (pod_metadata pod)))
      (printPodInfo Date_parse now pod)
   /\ (forall owner, ~ In (ownerLine owner) (printPodInfo Date_parse now pod)))
  /\ (forall before r after,
        ownerReferences (pod_metadata pod) = Some (before ++ r :: after)%list ->
        ref_kind r = "StatefulSet" ->
        (forall x, In x before -> ref_kind x <> "StatefulSet") ->
        ref_name r <> EmptyString ->
        In (titleLine "📊" "StatefulSet Pod" (pod_name (pod_metadata pod)))
           (printPodInfo Date_parse now pod)
        /\ In (ownerLine (ref_name r)) (printPodInfo Date_parse now pod)).
Proof.
  rewrite printPodInfo_parts. split.
  - intro Hss.
    assert (Hname : statefulSetName pod = None)
      by (unfold statefulSetName; now rewrite Hss).
    rewrite Hss, Hname. cbn [Js.truthyString]. split.
    + rewrite !in_app_iff. left. now left.
    + intro owner. rewrite !in_app_iff. intros [H|[H|[H|[H|[H|H]]]]].
      * destruct H as [H|[]]. other_line H.
      * destruct H.
      * destruct H as [H|H]; [revert H; apply statusLine_not_owner|].
        destruct H as [H|[H|[H|[H|[]]]]]; other_line H.
      * destruct H.
      * destruct (0 <? _); [|destruct H].
        destruct H as [H|H]; [other_line H|].
        apply in_map_iff in H. destruct H as (c & H & _). other_line H.
      * destruct H as [H|[]]. other_line H.
  - intros before r after Hrefs Hr Hb Hn.
    destruct (first_StatefulSet_ref before after r Hr Hb) as [Hsome Hfind].
    assert (Hss : Js.truthyBool (isStatefulSet pod) = true)
      by (unfold isStatefulSet; now rewrite Hrefs, Hsome).
    assert (Hname : statefulSetName pod = Some (ref_name r))
      by (unfold statefulSetName; now rewrite Hss, Hrefs, Hfind).
    rewrite Hss, Hname. cbn [Js.truthyString Js.show].
    assert (Ht : Js.truthy (ref_name r) = true)
      by (destruct (ref_name r); [congruence | reflexivity]).
    rewrite Ht, !in_app_iff. split.
    + left. now left.
    + right. left. now left.
Qed.

Lemma printPodInfo_affiliation_witness :
  In (titleLine "📊" "StatefulSet Pod" "cjoc-0")
     (printPodInfo exampleDate exampleStart examplePod)
  /\ In (ownerLine "cjoc") (printPodInfo exampleDate exampleStart examplePod)
  /\ In (titleLine "📦" "Pod" "agent")
        (printPodInfo exampleDate exampleStart (barePod "agent" "Running")).
Proof.
  destruct (proj2 (printPodInfo_affiliation exampleDate exampleStart examplePod)
              [] (mkOwnerReference "StatefulSet" "cjoc") [] eq_refl eq_refl
              ltac:(intros x []) ltac:(discriminate)) as [Ht Ho].
  split; [exact Ht|]. split; [exact Ho|].
  exact (proj1 (proj1 (printPodInfo_affiliation exampleDate exampleStart
                         (barePod "agent" "Running")) eq_refl)).
Defined.

